(** * oauth2dev: the OAuth 2.0 device authorization grant client

  A shallow embedding of package [oauth2dev] (RequestDeviceCode and
  WaitForDeviceAuthorization) together with the parts of the Go runtime
  and of the libraries it calls that decide its behaviour: 64-bit integer
  arithmetic, [time], [encoding/json] decoding into the two response
  structs, [net/http] status codes and [fmt.Errorf].

  Conventions.
  - A Go [int64] (and [int], [time.Duration]) is a [Z]; every arithmetic
    operation of the source is followed by its wrap-around ([wrap64]).
  - A pointer handed in by the caller ([client], [config], [code]) is
    valid; the object it points to lives in the [Store] threaded through
    the model.  A pointer the package creates itself (the embedded
    [*oauth2.Token] of [tokenOrError]) is an [option]: [None] is [nil].
  - The network, the clock and [time.Sleep] are the environment: each
    call of [PostForm] is answered by the next scripted [Round], and each
    request and sleep is appended to a trace of [Event]s. *)

From Stdlib Require Import ZArith String Ascii List Bool Lia DecimalString.
Import ListNotations.

Local Open Scope string_scope.
Local Open Scope Z_scope.

(* ===================================================================== *)
(** ** Go integers, durations and instants *)

Module Go.

Definition minInt64 : Z := - 2 ^ 63.
Definition maxInt64 : Z := 2 ^ 63 - 1.

(** Two's complement wrap-around of a 64-bit signed result. *)
Definition wrap64 (z : Z) : Z := (z + 2 ^ 63) mod 2 ^ 64 - 2 ^ 63.

Definition isInt64 (z : Z) : bool := (minInt64 <=? z) && (z <=? maxInt64).

(** [a * b] on int64 operands. *)
Definition mul64 (a b : Z) : Z := wrap64 (a * b).

(** [%v] of an integer: decimal digits, with a leading minus sign. *)
Definition itoa (z : Z) : string := NilZero.string_of_int (Z.to_int z).

(** [strings.Join]. *)
Definition Join (elems : list string) (sep : string) : string :=
  String.concat sep elems.

End Go.

Module time.

(** [time.Duration]: an int64 count of nanoseconds. *)
Definition Duration : Type := Z.
Definition Second : Duration := 1000000000.

(** [time.Time] as the instant it denotes: nanoseconds since the zero
    instant, January 1 of year 1, 00:00:00 UTC.  The location and the
    monotonic reading of a Go [Time] are not part of the model; no code of
    the package looks at them. *)
Definition Time : Type := Z.
Definition zero : Time := 0.

Definition IsZero (t : Time) : bool := t =? 0.

(** [t.Add(d)].  A [Duration] spans at most 292 years either way, far
    inside what a [Time] represents, so the sum is exact. *)
Definition Add (t : Time) (d : Duration) : Time := t + d.

End time.

(** The mathematical length of [n] seconds, in nanoseconds. *)
Definition seconds (n : Z) : Z := n * 1000000000.

(** The largest number of whole seconds a [time.Duration] holds. *)
Definition maxSeconds : Z := 9223372036.

(* ===================================================================== *)
(** ** JSON values *)

Module json.

#[local] Set Warnings "-register-all".

(** A number literal: an integer literal, or one with a fraction or an
    exponent (kept as its text, it is never an int64). *)
Inductive number :=
| Int (z : Z)
| Float (lit : string).

Inductive value :=
| Null
| Bool (b : bool)
| Number (n : number)
| String (s : string)
| Array (elems : list value)
| Object (members : list (string * value)).

End json.

(* ===================================================================== *)
(** ** Errors *)

(** Go compares [error] values by identity.  [ErrAccessDenied] is the
  package-level sentinel, [errors.New("access denied by user")]; every
  other constructor is a value made afresh where the error arises, so none
  of them is ever identical to the sentinel, whatever its text. *)
Inductive error :=
| ErrAccessDenied
| errorString (s : string)              (* fmt.Errorf / errors.New *)
| url_Error (cause : string)            (* what client.PostForm reports *)
| SyntaxError                           (* the body is not a JSON value *)
| UnmarshalTypeError (v : json.value) (field : string)
| ParseError (s : string).              (* Time.UnmarshalJSON *)

(* ===================================================================== *)
(** ** encoding/json: decoding an object into a struct *)

Module decode.

(** Upper-case an ASCII letter. *)
Definition upper (c : ascii) : ascii :=
  let n := N_of_ascii c in
  if ((97 <=? n) && (n <=? 122))%N then ascii_of_N (n - 32) else c.

(** [foldName]: the key under which a member name is compared when no
    field has exactly that name.  ASCII letters fold to upper case; of the
    other runes only U+017F (long s, bytes C5 BF) and U+212A (Kelvin sign,
    bytes E2 84 AA) fold into ASCII, to S and K.  Every other rune keeps
    bytes above 127 and so never equals the folded name of a field here. *)
Fixpoint foldName (s : string) : string :=
  match s with
  | EmptyString => EmptyString
  | String.String c rest =>
      match N_of_ascii c, rest with
      | 197%N, String.String c1 rest1 =>
          if (N_of_ascii c1 =? 191)%N
          then String.String "S" (foldName rest1)
          else String.String c (foldName rest)
      | 226%N, String.String c1 (String.String c2 rest2) =>
          if ((N_of_ascii c1 =? 132) && (N_of_ascii c2 =? 170))%N
          then String.String "K" (foldName rest2)
          else String.String c (foldName rest)
      | _, _ => String.String (upper c) (foldName rest)
      end
  end.

(** What storing one member's value into a field does. *)
Inductive stored (T : Type) :=
| Stored (v : T)                 (* the field is set, or left as it was *)
| Mismatch (v : T) (e : error)   (* wrong JSON type: saved, decoding goes on *)
| Abort (e : error).             (* an Unmarshaler failed: decoding stops *)

Arguments Stored {T} v.
Arguments Mismatch {T} v e.
Arguments Abort {T} e.

Section Struct.

Context {T F : Type}.

(** The JSON names of the struct's fields, embedded ones included. *)
Variable fields : list (string * F).

(** Storing a value into the field; for a field promoted through an
    embedded pointer this allocates the pointer first. *)
Variable store : F -> json.value -> T -> stored T.

(** The field a member name selects: the exact name first, then the
    folded name. *)
Definition field (key : string) : option F :=
  match find (fun nf => String.eqb (fst nf) key) fields with
  | Some nf => Some (snd nf)
  | None =>
      match find (fun nf => String.eqb (foldName (fst nf)) (foldName key))
                 fields with
      | Some nf => Some (snd nf)
      | None => None
      end
  end.

(** The first type mismatch is the one reported. *)
Definition saveError (saved : option error) (e : error) : option error :=
  match saved with
  | Some e0 => Some e0
  | None => Some e
  end.

(** The members of an object, in the order of the text; a member whose
    name selects no field is skipped. *)
Fixpoint object (members : list (string * json.value)) (v : T)
    (saved : option error) : error + (T * option error) :=
  match members with
  | [] => inr (v, saved)
  | (key, j) :: rest =>
      match field key with
      | None => object rest v saved
      | Some f =>
          match store f j v with
          | Stored v1 => object rest v1 saved
          | Mismatch v1 e => object rest v1 (saveError saved e)
          | Abort e => inl e
          end
      end
  end.

(** [json.NewDecoder(body).Decode(&v)] for a struct [v] holding [zero].
    [None] is a body that does not start with a JSON value. *)
Definition Decode (zero : T) (body : option json.value) : error + T :=
  match body with
  | None => inl SyntaxError
  | Some json.Null => inr zero
  | Some (json.Object members) =>
      match object members zero None with
      | inl e => inl e
      | inr (_, Some e) => inl e
      | inr (v, None) => inr v
      end
  | Some j => inl (UnmarshalTypeError j "")
  end.

End Struct.

(** A string field. *)
Definition storeString {T} (name : string) (j : json.value)
    (set : string -> T) (keep : T) : stored T :=
  match j with
  | json.Null => Stored keep
  | json.String s => Stored (set s)
  | _ => Mismatch keep (UnmarshalTypeError j name)
  end.

(** An int64 field. *)
Definition storeInt64 {T} (name : string) (j : json.value)
    (set : Z -> T) (keep : T) : stored T :=
  match j with
  | json.Null => Stored keep
  | json.Number (json.Int z) =>
      if Go.isInt64 z then Stored (set z)
      else Mismatch keep (UnmarshalTypeError j name)
  | _ => Mismatch keep (UnmarshalTypeError j name)
  end.

(** A [time.Time] field, through [Time.UnmarshalJSON]. *)
Definition storeTime {T} (parse : string -> option time.Time)
    (j : json.value) (set : time.Time -> T) (keep : T) : stored T :=
  match j with
  | json.Null => Stored keep
  | json.String s =>
      match parse s with
      | Some t => Stored (set t)
      | None => Abort (ParseError s)
      end
  | _ => Abort (ParseError "")
  end.

End decode.

(* ===================================================================== *)
(** ** net/http and net/url *)

Module http.

Definition StatusOK : Z := 200.
Definition StatusBadRequest : Z := 400.
Definition StatusPreconditionRequired : Z := 428.

(** [http.StatusText]: the reason phrase of a status code, empty for a
    code the table does not know. *)
Definition StatusText (code : Z) : string :=
  match code with
  | 100 => "Continue"
  | 101 => "Switching Protocols"
  | 102 => "Processing"
  | 103 => "Early Hints"
  | 200 => "OK"
  | 201 => "Created"
  | 202 => "Accepted"
  | 203 => "Non-Authoritative Information"
  | 204 => "No Content"
  | 205 => "Reset Content"
  | 206 => "Partial Content"
  | 207 => "Multi-Status"
  | 208 => "Already Reported"
  | 226 => "IM Used"
  | 300 => "Multiple Choices"
  | 301 => "Moved Permanently"
  | 302 => "Found"
  | 303 => "See Other"
  | 304 => "Not Modified"
  | 305 => "Use Proxy"
  | 307 => "Temporary Redirect"
  | 308 => "Permanent Redirect"
  | 400 => "Bad Request"
  | 401 => "Unauthorized"
  | 402 => "Payment Required"
  | 403 => "Forbidden"
  | 404 => "Not Found"
  | 405 => "Method Not Allowed"
  | 406 => "Not Acceptable"
  | 407 => "Proxy Authentication Required"
  | 408 => "Request Timeout"
  | 409 => "Conflict"
  | 410 => "Gone"
  | 411 => "Length Required"
  | 412 => "Precondition Failed"
  | 413 => "Request Entity Too Large"
  | 414 => "Request URI Too Long"
  | 415 => "Unsupported Media Type"
  | 416 => "Requested Range Not Satisfiable"
  | 417 => "Expectation Failed"
  | 418 => "I'm a teapot"
  | 421 => "Misdirected Request"
  | 422 => "Unprocessable Entity"
  | 423 => "Locked"
  | 424 => "Failed Dependency"
  | 425 => "Too Early"
  | 426 => "Upgrade Required"
  | 428 => "Precondition Required"
  | 429 => "Too Many Requests"
  | 431 => "Request Header Fields Too Large"
  | 451 => "Unavailable For Legal Reasons"
  | 500 => "Internal Server Error"
  | 501 => "Not Implemented"
  | 502 => "Bad Gateway"
  | 503 => "Service Unavailable"
  | 504 => "Gateway Timeout"
  | 505 => "HTTP Version Not Supported"
  | 506 => "Variant Also Negotiates"
  | 507 => "Insufficient Storage"
  | 508 => "Loop Detected"
  | 510 => "Not Extended"
  | 511 => "Network Authentication Required"
  | _ => ""
  end.

(** The part of [*http.Response] the package reads.  [Body] is the JSON
    value the body text starts with, [None] when it starts with none. *)
Record Response := {
  StatusCode : Z;
  Body : option json.value
}.

End http.

Module url.

(** [url.Values]: the form fields of a request, each with its values. *)
Definition Values : Type := list (string * list string).

End url.

(* ===================================================================== *)
(** ** golang.org/x/oauth2 *)

Module oauth2.

Module Endpoint.
Record t := {
  AuthURL : string;
  TokenURL : string
}.
End Endpoint.

Module Config.
Record t := {
  ClientID : string;
  ClientSecret : string;
  Endpoint : Endpoint.t;
  RedirectURL : string;
  Scopes : list string
}.
End Config.

(** The exported fields of [oauth2.Token]; their JSON names are
    access_token, token_type, refresh_token and expiry. *)
Module Token.
Record t := {
  AccessToken : string;
  TokenType : string;
  RefreshToken : string;
  Expiry : time.Time
}.

(** What [new(oauth2.Token)] holds. *)
Definition zero : t :=
  {| AccessToken := ""; TokenType := ""; RefreshToken := "";
     Expiry := time.zero |}.
End Token.

End oauth2.

(* ===================================================================== *)
(** ** The environment and the monad of the model *)

(** What one call of [client.PostForm] comes back with. *)
Inductive PostResult :=
| Failed (cause : string)
| Replied (resp : http.Response).

(** One round of the polling loop as the environment sees it: the answer to
    the request, and what [time.Now()] reads if the round consults it. *)
Record Round := {
  reply : PostResult;
  clock : time.Time
}.

(** What the program does to the outside world. *)
Inductive Event :=
| PostFormEv (target : string) (data : url.Values)
| SleepEv (d : time.Duration).

(** A computation ends with a value or with a run-time panic. *)
Inductive result (A : Type) :=
| Done (a : A)
| Panic (reason : string).

Arguments Done {A} a.
Arguments Panic {A} reason.

(** State [S] (the objects behind the pointer arguments), a trace of events
    and panics. *)
Definition M (S A : Type) : Type := S -> result A * S * list Event.

Definition ret {S A} (a : A) : M S A := fun s => (Done a, s, []).

Definition bind {S A B} (m : M S A) (k : A -> M S B) : M S B :=
  fun s =>
    match m s with
    | (Done a, s1, t1) =>
        match k a s1 with
        | (r, s2, t2) => (r, s2, (t1 ++ t2)%list)
        end
    | (Panic reason, s1, t1) => (Panic reason, s1, t1)
    end.

Notation "x <- m ;; k" := (bind m (fun x => k))
  (at level 61, m at next level, right associativity).
Notation "m ;;; k" := (bind m (fun _ => k))
  (at level 61, right associativity).

Definition get {S} : M S S := fun s => (Done s, s, []).
Definition put {S} (s : S) : M S unit := fun _ => (Done tt, s, []).
Definition emit {S} (e : Event) : M S unit := fun s => (Done tt, s, [e]).
Definition panic {S A} (reason : string) : M S A :=
  fun s => (Panic reason, s, []).

Definition nilDereference : string :=
  "runtime error: invalid memory address or nil pointer dereference".

(** Reading through a pointer the package made itself. *)
Definition deref {S A} (p : option A) : M S A :=
  match p with
  | Some a => ret a
  | None => panic nilDereference
  end.

(** [client.PostForm(url, data)], answered by the environment. *)
Definition PostForm {S} (answer : PostResult) (target : string)
    (data : url.Values) : M S (error + http.Response) :=
  emit (PostFormEv target data) ;;;
  ret match answer with
      | Failed cause => inl (url_Error cause)
      | Replied resp => inr resp
      end.

(** [time.Sleep(d)]. *)
Definition Sleep {S} (d : time.Duration) : M S unit := emit (SleepEv d).

(* ===================================================================== *)
(** ** Package oauth2dev: data *)

Module DeviceCode.

Record t := {
  DeviceCode : string;               (* json: device_code *)
  UserCode : string;                 (* json: user_code *)
  VerificationURL : string;          (* json: verification_uri *)
  VerificationURLComplete : string;  (* json: verification_uri_complete *)
  ExpiresIn : Z;                     (* json: expires_in *)
  Interval : Z                       (* json: interval *)
}.

(** [var dcr DeviceCode]. *)
Definition zero : t :=
  {| DeviceCode := ""; UserCode := ""; VerificationURL := "";
     VerificationURLComplete := ""; ExpiresIn := 0; Interval := 0 |}.

Definition withInterval (c : t) (i : Z) : t :=
  {| DeviceCode := DeviceCode c; UserCode := UserCode c;
     VerificationURL := VerificationURL c;
     VerificationURLComplete := VerificationURLComplete c;
     ExpiresIn := ExpiresIn c; Interval := i |}.

Inductive field :=
| device_code | user_code | verification_uri | verification_uri_complete
| expires_in | interval.

Definition fields : list (string * field) :=
  [ ("device_code", device_code);
    ("user_code", user_code);
    ("verification_uri", verification_uri);
    ("verification_uri_complete", verification_uri_complete);
    ("expires_in", expires_in);
    ("interval", interval) ].

Definition store (f : field) (j : json.value) (c : t) : decode.stored t :=
  match f with
  | device_code =>
      decode.storeString "device_code" j
        (fun s => {| DeviceCode := s; UserCode := UserCode c;
                     VerificationURL := VerificationURL c;
                     VerificationURLComplete := VerificationURLComplete c;
                     ExpiresIn := ExpiresIn c; Interval := Interval c |}) c
  | user_code =>
      decode.storeString "user_code" j
        (fun s => {| DeviceCode := DeviceCode c; UserCode := s;
                     VerificationURL := VerificationURL c;
                     VerificationURLComplete := VerificationURLComplete c;
                     ExpiresIn := ExpiresIn c; Interval := Interval c |}) c
  | verification_uri =>
      decode.storeString "verification_uri" j
        (fun s => {| DeviceCode := DeviceCode c; UserCode := UserCode c;
                     VerificationURL := s;
                     VerificationURLComplete := VerificationURLComplete c;
                     ExpiresIn := ExpiresIn c; Interval := Interval c |}) c
  | verification_uri_complete =>
      decode.storeString "verification_uri_complete" j
        (fun s => {| DeviceCode := DeviceCode c; UserCode := UserCode c;
                     VerificationURL := VerificationURL c;
                     VerificationURLComplete := s;
                     ExpiresIn := ExpiresIn c; Interval := Interval c |}) c
  | expires_in =>
      decode.storeInt64 "expires_in" j
        (fun z => {| DeviceCode := DeviceCode c; UserCode := UserCode c;
                     VerificationURL := VerificationURL c;
                     VerificationURLComplete := VerificationURLComplete c;
                     ExpiresIn := z; Interval := Interval c |}) c
  | interval =>
      decode.storeInt64 "interval" j (withInterval c) c
  end.

(** [dec.Decode(&dcr)]. *)
Definition Decode (body : option json.value) : error + t :=
  decode.Decode fields store zero body.

End DeviceCode.

Module DeviceEndpoint.
Record t := {
  CodeURL : string
}.
End DeviceEndpoint.

(** [oauth2.Config] augmented with the device endpoint.  [Config] is the
    object behind the embedded [*oauth2.Config]. *)
Module Config.
Record t := {
  Config : oauth2.Config.t;
  DeviceEndpoint : DeviceEndpoint.t
}.
End Config.

Module tokenOrError.

Record t := {
  Token : option oauth2.Token.t;     (* embedded *oauth2.Token, nil = None *)
  Error : string;                    (* json: error *)
  ErrorDescription : string;         (* json: error_description *)
  ExpiresIn : Z                      (* json: expires_in *)
}.

(** [var token tokenOrError]: the embedded pointer starts nil. *)
Definition zero : t :=
  {| Token := None; Error := ""; ErrorDescription := ""; ExpiresIn := 0 |}.

Definition withToken (v : t) (tok : oauth2.Token.t) : t :=
  {| Token := Some tok; Error := Error v;
     ErrorDescription := ErrorDescription v; ExpiresIn := ExpiresIn v |}.

(** The fields a member name can select: the four promoted from the
    embedded token, and the struct's own.  expires_in is the struct's own
    field; a field of that name in the embedded token would lie deeper and
    be hidden by it. *)
Inductive field :=
| access_token | token_type | refresh_token | expiry
| error_ | error_description | expires_in.

Definition fields : list (string * field) :=
  [ ("access_token", access_token);
    ("token_type", token_type);
    ("refresh_token", refresh_token);
    ("expiry", expiry);
    ("error", error_);
    ("error_description", error_description);
    ("expires_in", expires_in) ].

(** Walking to a promoted field allocates the embedded token when the
    pointer is still nil, before the member's value is looked at. *)
Definition alloc (v : t) : oauth2.Token.t :=
  match Token v with
  | Some tok => tok
  | None => oauth2.Token.zero
  end.

Section Store.

(** [time.Parse] of an RFC 3339 timestamp, as [Time.UnmarshalJSON] uses
    it; [None] when the text is not one. *)
Variable parseTime : string -> option time.Time.

Definition store (f : field) (j : json.value) (v : t) : decode.stored t :=
  let tok := alloc v in
  match f with
  | access_token =>
      decode.storeString "access_token" j
        (fun s => withToken v
           {| oauth2.Token.AccessToken := s;
              oauth2.Token.TokenType := oauth2.Token.TokenType tok;
              oauth2.Token.RefreshToken := oauth2.Token.RefreshToken tok;
              oauth2.Token.Expiry := oauth2.Token.Expiry tok |})
        (withToken v tok)
  | token_type =>
      decode.storeString "token_type" j
        (fun s => withToken v
           {| oauth2.Token.AccessToken := oauth2.Token.AccessToken tok;
              oauth2.Token.TokenType := s;
              oauth2.Token.RefreshToken := oauth2.Token.RefreshToken tok;
              oauth2.Token.Expiry := oauth2.Token.Expiry tok |})
        (withToken v tok)
  | refresh_token =>
      decode.storeString "refresh_token" j
        (fun s => withToken v
           {| oauth2.Token.AccessToken := oauth2.Token.AccessToken tok;
              oauth2.Token.TokenType := oauth2.Token.TokenType tok;
              oauth2.Token.RefreshToken := s;
              oauth2.Token.Expiry := oauth2.Token.Expiry tok |})
        (withToken v tok)
  | expiry =>
      decode.storeTime parseTime j
        (fun e => withToken v
           {| oauth2.Token.AccessToken := oauth2.Token.AccessToken tok;
              oauth2.Token.TokenType := oauth2.Token.TokenType tok;
              oauth2.Token.RefreshToken := oauth2.Token.RefreshToken tok;
              oauth2.Token.Expiry := e |})
        (withToken v tok)
  | error_ =>
      decode.storeString "error" j
        (fun s => {| Token := Token v; Error := s;
                     ErrorDescription := ErrorDescription v;
                     ExpiresIn := ExpiresIn v |}) v
  | error_description =>
      decode.storeString "error_description" j
        (fun s => {| Token := Token v; Error := Error v;
                     ErrorDescription := s;
                     ExpiresIn := ExpiresIn v |}) v
  | expires_in =>
      decode.storeInt64 "expires_in" j
        (fun z => {| Token := Token v; Error := Error v;
                     ErrorDescription := ErrorDescription v;
                     ExpiresIn := z |}) v
  end.

(** [dec.Decode(&token)]. *)
Definition Decode (body : option json.value) : error + t :=
  decode.Decode fields store zero body.

End Store.

End tokenOrError.

(* ===================================================================== *)
(** ** Package oauth2dev: the two operations *)

Definition deviceGrantType : string :=
  "urn:ietf:params:oauth:grant-type:device_code".

(** What a Go function returning a pointer to [T] and an [error] hands
    back; [None] is [nil]. *)
Definition returned (T : Type) : Type := (option T * option error)%type.

(** [RequestDeviceCode(client, config)].  The state is the object behind
    [config]; [answer] is what the one [PostForm] comes back with. *)
Definition RequestDeviceCode (answer : PostResult)
    : M Config.t (returned DeviceCode.t) :=
  config <- get ;;
  let scopes := Go.Join (oauth2.Config.Scopes (Config.Config config)) " " in
  r <- PostForm answer
         (DeviceEndpoint.CodeURL (Config.DeviceEndpoint config))
         [ ("client_id", [oauth2.Config.ClientID (Config.Config config)]);
           ("scope", [scopes]) ] ;;
  match r with
  | inl err => ret (None, Some err)
  | inr resp =>
      if negb (http.StatusCode resp =? http.StatusOK) then
        ret (None,
             Some (errorString
                     ("request for device code authorisation returned status "
                      ++ Go.itoa (http.StatusCode resp) ++ " ("
                      ++ http.StatusText (http.StatusCode resp) ++ ")")))
      else
        match DeviceCode.Decode (http.Body resp) with
        | inl err => ret (None, Some err)
        | inr dcr => ret (Some dcr, None)
        end
  end.

(** The objects behind the pointer arguments of
    [WaitForDeviceAuthorization]. *)
Record Store := {
  config : Config.t;
  code : DeviceCode.t
}.

(** How one pass through the body of the [for] loop ends. *)
Inductive Flow :=
| Continue
| Return (tok : option oauth2.Token.t) (err : option error).

(** [time.Sleep(time.Duration(code.Interval) * time.Second)]. *)
Definition sleepInterval : M Store unit :=
  s <- get ;;
  Sleep (Go.mul64 (DeviceCode.Interval (code s)) time.Second).

(** [code.Interval *= 2]. *)
Definition doubleInterval : M Store unit :=
  s <- get ;;
  put {| config := config s;
         code := DeviceCode.withInterval (code s)
                   (Go.mul64 (DeviceCode.Interval (code s)) 2) |}.

Definition withExpiry (token : tokenOrError.t) (tok : oauth2.Token.t)
    (e : time.Time) : tokenOrError.t :=
  tokenOrError.withToken token
    {| oauth2.Token.AccessToken := oauth2.Token.AccessToken tok;
       oauth2.Token.TokenType := oauth2.Token.TokenType tok;
       oauth2.Token.RefreshToken := oauth2.Token.RefreshToken tok;
       oauth2.Token.Expiry := e |}.

Section Poller.

Variable parseTime : string -> option time.Time.

(** [if resp.StatusCode != http.StatusBadRequest { ... }]: reading
    [token.Expiry] goes through the embedded pointer. *)
Definition fillExpiry (round : Round) (resp : http.Response)
    (token : tokenOrError.t) : M Store tokenOrError.t :=
  if negb (http.StatusCode resp =? http.StatusBadRequest) then
    tok <- deref (tokenOrError.Token token) ;;
    if time.IsZero (oauth2.Token.Expiry tok)
       && negb (tokenOrError.ExpiresIn token =? 0)
    then
      ret (withExpiry token tok
             (time.Add (clock round)
                (Go.mul64 (tokenOrError.ExpiresIn token) time.Second)))
    else ret token
  else ret token.

(** [switch token.Error { ... }] and the sleep after it. *)
Definition dispatch (token : tokenOrError.t) : M Store Flow :=
  let e := tokenOrError.Error token in
  if String.eqb e "" then
    ret (Return (tokenOrError.Token token) None)
  else if String.eqb e "authorization_pending" then
    sleepInterval ;;; ret Continue
  else if String.eqb e "slow_down" then
    doubleInterval ;;; sleepInterval ;;; ret Continue
  else if String.eqb e "access_denied" then
    ret (Return None (Some ErrAccessDenied))
  else
    ret (Return None (Some (errorString ("authorization failed: " ++ e)))).

(** One pass through the body of the [for] loop. *)
Definition poll (round : Round) : M Store Flow :=
  s <- get ;;
  r <- PostForm (reply round)
         (oauth2.Endpoint.TokenURL
            (oauth2.Config.Endpoint (Config.Config (config s))))
         [ ("client_secret",
              [oauth2.Config.ClientSecret (Config.Config (config s))]);
           ("client_id",
              [oauth2.Config.ClientID (Config.Config (config s))]);
           ("device_code", [DeviceCode.DeviceCode (code s)]);
           ("grant_type", [deviceGrantType]) ] ;;
  match r with
  | inl err => ret (Return None (Some err))
  | inr resp =>
      if http.StatusCode resp =? http.StatusPreconditionRequired then
        sleepInterval ;;; ret Continue
      else if negb (http.StatusCode resp =? http.StatusOK)
              && negb (http.StatusCode resp =? http.StatusBadRequest) then
        ret (Return None
               (Some (errorString
                        ("HTTP error " ++ Go.itoa (http.StatusCode resp)
                         ++ " (" ++ http.StatusText (http.StatusCode resp)
                         ++ ") when polling for OAuth token"))))
      else
        match tokenOrError.Decode parseTime (http.Body resp) with
        | inl err => ret (Return None (Some err))
        | inr token =>
            token1 <- fillExpiry round resp token ;;
            dispatch token1
        end
  end.

(** Where a run of the poller stands: still in the loop, waiting for the
    next answer, or returned. *)
Inductive Outcome :=
| StillPolling
| Returned (tok : option oauth2.Token.t) (err : option error).

(** [WaitForDeviceAuthorization(client, config, code)] against the scripted
    rounds: the loop runs until a pass returns or the script is used up. *)
Fixpoint WaitForDeviceAuthorization (rounds : list Round) : M Store Outcome :=
  match rounds with
  | [] => ret StillPolling
  | round :: rest =>
      f <- poll round ;;
      match f with
      | Continue => WaitForDeviceAuthorization rest
      | Return tok err => ret (Returned tok err)
      end
  end.

End Poller.

(** The states of the polling state machine. *)
Inductive State := Polling | TokenIssued | Denied | Fatal.

Definition stateOf (o : Outcome) : State :=
  match o with
  | StillPolling => Polling
  | Returned _ None => TokenIssued
  | Returned _ (Some ErrAccessDenied) => Denied
  | Returned _ (Some _) => Fatal
  end.

Definition flowState (f : Flow) : State :=
  match f with
  | Continue => Polling
  | Return tok err => stateOf (Returned tok err)
  end.

(** How many requests a trace holds. *)
Definition polls (trace : list Event) : nat :=
  length (filter (fun e => match e with PostFormEv _ _ => true | _ => false end)
            trace).

(* ===================================================================== *)
(** ** What a JSON text says about a DeviceCode *)

Module DeviceCodeJSON.

Import DeviceCode.

Definition field_eq_dec (a b : field) : {a = b} + {a <> b}.
Proof. decide equality. Defined.

(** The value the text gives a field: that of the last member whose name
    selects the field. *)
Fixpoint lastMember (members : list (string * json.value)) (f : field)
    : option json.value :=
  match members with
  | [] => None
  | (key, j) :: rest =>
      match lastMember rest f with
      | Some j1 => Some j1
      | None =>
          match decode.field fields key with
          | Some f1 => if field_eq_dec f1 f then Some j else None
          | None => None
          end
      end
  end.

(** The string, or the integer, a field gets; the zero value when the
    text has no member for it. *)
Definition stringAt (members : list (string * json.value)) (f : field)
    : string :=
  match lastMember members f with
  | Some (json.String s) => s
  | _ => ""
  end.

Definition int64At (members : list (string * json.value)) (f : field) : Z :=
  match lastMember members f with
  | Some (json.Number (json.Int z)) => z
  | _ => 0
  end.

(** A member value of the JSON type its field takes. *)
Definition hasType (f : field) (j : json.value) : bool :=
  match f, j with
  | (device_code | user_code | verification_uri | verification_uri_complete),
    json.String _ => true
  | (expires_in | interval), json.Number (json.Int z) => Go.isInt64 z
  | _, _ => false
  end.

(** A body of the DeviceCode shape: an object in which every member that
    names a field carries a value of that field's type. *)
Definition shaped (members : list (string * json.value)) : bool :=
  forallb (fun kv =>
             match decode.field fields (fst kv) with
             | Some f => hasType f (snd kv)
             | None => true
             end) members.

(** The record the text denotes. *)
Definition denoted (members : list (string * json.value)) : t :=
  {| DeviceCode := stringAt members device_code;
     UserCode := stringAt members user_code;
     VerificationURL := stringAt members verification_uri;
     VerificationURLComplete := stringAt members verification_uri_complete;
     ExpiresIn := int64At members expires_in;
     Interval := int64At members interval |}.

(** The record the decoder holds after the members of [members], started
    from [c]: for each field, what the last member selecting it says, and
    what [c] held when there is none. *)
Definition overlay (members : list (string * json.value)) (c : t) : t :=
  {| DeviceCode :=
       match lastMember members device_code with
       | Some (json.String s) => s | _ => DeviceCode c end;
     UserCode :=
       match lastMember members user_code with
       | Some (json.String s) => s | _ => UserCode c end;
     VerificationURL :=
       match lastMember members verification_uri with
       | Some (json.String s) => s | _ => VerificationURL c end;
     VerificationURLComplete :=
       match lastMember members verification_uri_complete with
       | Some (json.String s) => s | _ => VerificationURLComplete c end;
     ExpiresIn :=
       match lastMember members expires_in with
       | Some (json.Number (json.Int z)) => z | _ => ExpiresIn c end;
     Interval :=
       match lastMember members interval with
       | Some (json.Number (json.Int z)) => z | _ => Interval c end |}.

End DeviceCodeJSON.

(* ===================================================================== *)
(** ** Sample inputs *)

Module Sample.

Definition clientConfig : Config.t :=
  {| Config.Config :=
       {| oauth2.Config.ClientID := "cli";
          oauth2.Config.ClientSecret := "";
          oauth2.Config.Endpoint :=
            {| oauth2.Endpoint.AuthURL := "https://idp/auth";
               oauth2.Endpoint.TokenURL := "https://idp/token" |};
          oauth2.Config.RedirectURL := "";
          oauth2.Config.Scopes := ["openid"; "profile"; "email"] |};
     Config.DeviceEndpoint :=
       {| DeviceEndpoint.CodeURL := "https://idp/auth/device" |} |}.

Definition deviceCode : DeviceCode.t :=
  {| DeviceCode.DeviceCode := "D1";
     DeviceCode.UserCode := "ABCD-EFGH";
     DeviceCode.VerificationURL := "https://idp/device";
     DeviceCode.VerificationURLComplete := "https://idp/device?code=ABCD-EFGH";
     DeviceCode.ExpiresIn := 600;
     DeviceCode.Interval := 5 |}.

Definition store : Store := {| config := clientConfig; code := deviceCode |}.

(** The device-authorization body of the scenario. *)
Definition deviceCodeMembers : list (string * json.value) :=
  [ ("device_code", json.String "D1");
    ("user_code", json.String "ABCD-EFGH");
    ("verification_uri", json.String "https://idp/device");
    ("verification_uri_complete",
       json.String "https://idp/device?code=ABCD-EFGH");
    ("expires_in", json.Number (json.Int 600));
    ("interval", json.Number (json.Int 5)) ].

(** A body that holds an error member and nothing else. *)
Definition errorBody (discriminant : string) : json.value :=
  json.Object [ ("error", json.String discriminant) ].

(** The token body of the scenario. *)
Definition tokenBody : json.value :=
  json.Object [ ("access_token", json.String "tok123");
                ("token_type", json.String "Bearer");
                ("expires_in", json.Number (json.Int 3600)) ].

Definition response (status : Z) (body : json.value) : http.Response :=
  {| http.StatusCode := status; http.Body := Some body |}.

(** A round answered with [status] and [body] while the clock reads
    [now]. *)
Definition round (status : Z) (body : json.value) (now : time.Time) : Round :=
  {| reply := Replied (response status body); clock := now |}.

(** An instant in the year 2026, in nanoseconds since the zero instant. *)
Definition now : time.Time := 63900000000000000000.

(** A timestamp parser for bodies without an expiry member, on which the
    decoder never consults it. *)
Definition noTimestamp : string -> option time.Time := fun _ => None.

(** The request a poll of [store] sends. *)
Definition pollRequest : Event :=
  PostFormEv "https://idp/token"
    [ ("client_secret", [""]); ("client_id", ["cli"]);
      ("device_code", ["D1"]);
      ("grant_type", ["urn:ietf:params:oauth:grant-type:device_code"]) ].

End Sample.

(** The request one poll sends, given the objects behind [config] and
    [code]. *)
Definition tokenRequest (s : Store) : Event :=
  PostFormEv
    (oauth2.Endpoint.TokenURL
       (oauth2.Config.Endpoint (Config.Config (config s))))
    [ ("client_secret",
         [oauth2.Config.ClientSecret (Config.Config (config s))]);
      ("client_id", [oauth2.Config.ClientID (Config.Config (config s))]);
      ("device_code", [DeviceCode.DeviceCode (code s)]);
      ("grant_type", [deviceGrantType]) ].

(** The request for a device code. *)
Definition codeRequest (c : Config.t) : Event :=
  PostFormEv (DeviceEndpoint.CodeURL (Config.DeviceEndpoint c))
    [ ("client_id", [oauth2.Config.ClientID (Config.Config c)]);
      ("scope", [Go.Join (oauth2.Config.Scopes (Config.Config c)) " "]) ].

(** The frame of the poller: everything behind [config], and every field
    of the device code but [Interval], is as before. *)
Definition sameButInterval (s s1 : Store) : Prop :=
  config s1 = config s
  /\ DeviceCode.DeviceCode (code s1) = DeviceCode.DeviceCode (code s)
  /\ DeviceCode.UserCode (code s1) = DeviceCode.UserCode (code s)
  /\ DeviceCode.VerificationURL (code s1) = DeviceCode.VerificationURL (code s)
  /\ DeviceCode.VerificationURLComplete (code s1)
     = DeviceCode.VerificationURLComplete (code s)
  /\ DeviceCode.ExpiresIn (code s1) = DeviceCode.ExpiresIn (code s).

(** The store a computation leaves. *)
Definition finalStore {A} (x : result A * Store * list Event) : Store :=
  snd (fst x).

(** A computation that keeps the frame from every store. *)
Definition framed {A} (m : M Store A) : Prop :=
  forall s, sameButInterval s (finalStore (m s)).

(** The store after [code.Interval *= 2]. *)
Definition doubled (s : Store) : Store :=
  {| config := config s;
     code := DeviceCode.withInterval (code s)
               (Go.mul64 (DeviceCode.Interval (code s)) 2) |}.

(** The sleep between two polls, as an event. *)
Definition intervalSleep (s : Store) : Event :=
  SleepEv (Go.mul64 (DeviceCode.Interval (code s)) time.Second).

(** A run preceded by an event. *)
Definition after {A} (e : Event) (x : result A * Store * list Event)
    : result A * Store * list Event :=
  match x with
  | (r, s, t) => (r, s, e :: t)
  end.

(** The loop decodes the answer of [round] into [token] and gets past the
    reading of its expiry: the status is 400, or it is 200 and the body
    named a field of the embedded token. *)
Definition decodes (parseTime : string -> option time.Time) (round : Round)
    (token : tokenOrError.t) : Prop :=
  exists resp,
    reply round = Replied resp
    /\ tokenOrError.Decode parseTime (http.Body resp) = inr token
    /\ (http.StatusCode resp = http.StatusBadRequest
        \/ (http.StatusCode resp = http.StatusOK
            /\ tokenOrError.Token token <> None)).

(** One poll and the sleep after it, once for each of [rounds]. *)
Definition pollAndSleep (s : Store) (rounds : list Round) : list Event :=
  flat_map (fun _ => [tokenRequest s; intervalSleep s]) rounds.

(* ===================================================================== *)
(** ** Traces and stores of a run *)

(** The trace a computation leaves, and how it ends. *)
Definition traceOf {A} (x : result A * Store * list Event) : list Event :=
  snd x.

Definition resultOf {A} (x : result A * Store * list Event) : result A :=
  fst (fst x).

(** How many sleeps a trace holds. *)
Definition sleeps (trace : list Event) : nat :=
  length (filter (fun e => match e with SleepEv _ => true | _ => false end)
            trace).

(** A trace in which requests and sleeps take turns, starting with a
    request: no two requests without a sleep between them, no sleep that
    does not follow a request. *)
Fixpoint paced (trace : list Event) : bool :=
  match trace with
  | [] => true
  | PostFormEv _ _ :: rest =>
      match rest with
      | [] => true
      | SleepEv _ :: rest1 => paced rest1
      | PostFormEv _ _ :: _ => false
      end
  | SleepEv _ :: _ => false
  end.

(** [k] times [code.Interval *= 2]. *)
Definition doublings (k : nat) (interval : Z) : Z :=
  Nat.iter k (fun i => Go.mul64 i 2) interval.

(** Two stores the poller cannot tell apart: the same configuration, the
    same device code to send, the same interval. *)
Definition samePolling (s s1 : Store) : Prop :=
  config s1 = config s
  /\ DeviceCode.DeviceCode (code s1) = DeviceCode.DeviceCode (code s)
  /\ DeviceCode.Interval (code s1) = DeviceCode.Interval (code s).

(** An answer on which the pass sleeps and polls again without touching the
    interval: status 428, or a decoded authorization_pending. *)
Definition keepsWaiting (parseTime : string -> option time.Time)
    (round : Round) : Prop :=
  (exists resp,
      reply round = Replied resp
      /\ http.StatusCode resp = http.StatusPreconditionRequired)
  \/ (exists token,
         decodes parseTime round token
         /\ tokenOrError.Error token = "authorization_pending").

(** A member name that selects one of the fields promoted from the
    embedded token. *)
Definition namesToken (key : string) : bool :=
  match decode.field tokenOrError.fields key with
  | Some (tokenOrError.access_token | tokenOrError.token_type
         | tokenOrError.refresh_token | tokenOrError.expiry) => true
  | _ => false
  end.

(** No member of the object names a field of the token. *)
Definition tokenless (members : list (string * json.value)) : bool :=
  forallb (fun kv => negb (namesToken (fst kv))) members.

(* ===================================================================== *)
(** ** Bodies of the device-authorization endpoint, null and ill-typed
       members included *)

Module DeviceCodeBody.

Import DeviceCode DeviceCodeJSON.

Definition isNull (j : json.value) : bool :=
  match j with
  | json.Null => true
  | _ => false
  end.

(** A member that the decoder stores: it names a field and is not null. *)
Definition sets (kv : string * json.value) : bool :=
  match decode.field fields (fst kv) with
  | Some _ => negb (isNull (snd kv))
  | None => false
  end.

(** An object the decoder accepts: every member that names a field is null
    or of the field's type. *)
Definition accepted (members : list (string * json.value)) : bool :=
  forallb (fun kv =>
             match decode.field fields (fst kv) with
             | Some f => isNull (snd kv) || hasType f (snd kv)
             | None => true
             end) members.

End DeviceCodeBody.

(* ===================================================================== *)
(** ** More sample inputs *)

Module Inputs.

(** A device-authorization body with names in mixed case, a repeated
    member, an unknown member and a null. *)
Definition lenientMembers : list (string * json.value) :=
  [ ("Device_Code", json.String "D0");
    ("interval", json.Number (json.Int 7));
    ("nonce", json.Bool true);
    ("DEVICE_CODE", json.String "D1");
    ("interval", json.Null) ].

(** A body whose first interval is a string. *)
Definition illTypedMembers : list (string * json.value) :=
  [ ("interval", json.String "5");
    ("interval", json.Number (json.Int 5)) ].

(** A body that sets no field of a DeviceCode. *)
Definition foreignMembers : list (string * json.value) :=
  [ ("error", json.String "invalid_client");
    ("interval", json.Null) ].

(** An answer with status 428 and an empty object for a body. *)
Definition round428 : Round :=
  Sample.round 428 (json.Object []) Sample.now.

(** Transport failure. *)
Definition roundFailed : Round :=
  {| reply := Failed "connection refused"; clock := Sample.now |}.

(** A response whose body is not JSON. *)
Definition roundGarbled : Round :=
  {| reply := Replied {| http.StatusCode := 200; http.Body := None |};
     clock := Sample.now |}.

(** A device code that differs from [Sample.deviceCode] in what the user
    is shown and in its lifetime. *)
Definition otherDeviceCode : DeviceCode.t :=
  {| DeviceCode.DeviceCode := "D1";
     DeviceCode.UserCode := "WXYZ";
     DeviceCode.VerificationURL := "https://elsewhere/device";
     DeviceCode.VerificationURLComplete := "";
     DeviceCode.ExpiresIn := 0;
     DeviceCode.Interval := 5 |}.

(** A store whose device code has interval 0. *)
Definition hastyStore : Store :=
  {| config := Sample.clientConfig;
     code := DeviceCode.withInterval Sample.deviceCode 0 |}.

End Inputs.

Module Inputs2.

(** A status-400 answer whose body holds neither an error nor a field of
    the token. *)
Definition emptyBadRequest : Round :=
  Sample.round 400 (json.Object [ ("scope", json.String "openid") ])
    Sample.now.

(** A status-200 answer with an error member and one member of the
    token. *)
Definition pendingWithType : json.value :=
  json.Object [ ("error", json.String "authorization_pending");
                ("token_type", json.String "Bearer") ].

End Inputs2.

(* ===================================================================== *)
(** ** The two command-line programs *)

Module program.

(** An operand of [fmt.Print] and [fmt.Printf]. *)
Inductive Value :=
| VString (s : string)
| VToken (tok : option oauth2.Token.t).   (* a *oauth2.Token, nil = None *)

(** What a program does that can be seen from outside: the requests and
    sleeps of package oauth2dev, what it prints, and [log.Fatal].  The
    traffic of provider discovery belongs to the oidc library and is not
    listed. *)
Inductive Output :=
| Net (e : Event)
| Print (operands : list Value)
| Printf (format : string) (operands : list Value)
| Fatal (err : error).

(** How a program ends: [main] returns, [log.Fatal] exits with a status,
    a panic, or still waiting in the polling loop. *)
Inductive Ending :=
| Finished
| Exited (status : Z)
| Crashed (reason : string)
| Waiting.

(** The surroundings of a run of [main]: the environment variables, what
    [oidc.NewProvider(ctx, url)] comes back with (the error, or the
    [Endpoint()] of the provider), and the answers of the two endpoints. *)
Record World := {
  Getenv : string -> string;
  NewProvider : string -> error + oauth2.Endpoint.t;
  codeAnswer : PostResult;
  tokenAnswers : list Round
}.

Definition newline : string := String.String "010" EmptyString.

(** [oidc.ScopeOpenID]. *)
Definition ScopeOpenID : string := "openid".

(** The end of both programs, from the call of WaitForDeviceAuthorization
    on: [log.Fatal(err)] on an error, the access token line otherwise. *)
Definition conclude (run : result Outcome * Store * list Event)
    : list Output * Ending :=
  match run with
  | (Panic reason, _, t) => (map Net t, Crashed reason)
  | (Done StillPolling, _, t) => (map Net t, Waiting)
  | (Done (Returned _ (Some err)), _, t) =>
      ((map Net t ++ [Fatal err])%list, Exited 1)
  | (Done (Returned tok None), _, t) =>
      ((map Net t
        ++ [Printf ("Access token: %v" ++ newline) [VToken tok]])%list,
       Finished)
  end.

(** A run preceded by outputs. *)
Definition preceded (outputs : list Output) (x : list Output * Ending)
    : list Output * Ending :=
  ((outputs ++ fst x)%list, snd x).

Section Programs.

Variable parseTime : string -> option time.Time.

(** [main] of cmd/main.go. *)
Definition main (w : World) : list Output * Ending :=
  let clientID := Getenv w "OIDCCLIENTID" in
  let providerURL := Getenv w "OIDCPROVIDERURL" in
  match NewProvider w providerURL with
  | inl err => ([Fatal err], Exited 1)
  | inr endpoint =>
      let clientOAuthConfig :=
        {| oauth2.Config.ClientID := clientID;
           oauth2.Config.ClientSecret := "";
           oauth2.Config.Endpoint := endpoint;
           oauth2.Config.RedirectURL := "";
           oauth2.Config.Scopes := [ScopeOpenID; "profile"; "email"] |} in
      let clientDeviceOAuthConfig :=
        {| Config.Config := clientOAuthConfig;
           Config.DeviceEndpoint :=
             {| DeviceEndpoint.CodeURL :=
                  oauth2.Endpoint.AuthURL endpoint ++ "/device" |} |} in
      match RequestDeviceCode (codeAnswer w) clientDeviceOAuthConfig with
      | (Panic reason, _, t) => (map Net t, Crashed reason)
      | (Done (_, Some err), _, t) =>
          ((map Net t ++ [Fatal err])%list, Exited 1)
      | (Done (None, None), _, t) => (map Net t, Crashed nilDereference)
      | (Done (Some dcr, None), config1, t) =>
          preceded
            (map Net t
             ++ [Printf ("Visit: %v" ++ newline)
                   [VString (DeviceCode.VerificationURLComplete dcr)]])%list
            (conclude
               (WaitForDeviceAuthorization parseTime (tokenAnswers w)
                  {| config := config1; code := dcr |}))
      end
  end.


End Programs.

(** The requests among the outputs. *)
Definition requests (outputs : list Output) : list (string * url.Values) :=
  flat_map (fun o => match o with
                     | Net (PostFormEv target data) => [(target, data)]
                     | _ => []
                     end) outputs.

End program.

(** The device-code request answered with a DeviceCode: status 200 and a
    body that decodes to [d]. *)
Definition issues (answer : PostResult) (d : DeviceCode.t) : Prop :=
  exists resp,
    answer = Replied resp
    /\ http.StatusCode resp = 200
    /\ DeviceCode.Decode (http.Body resp) = inr d.

(** The configuration that [main] of cmd/main.go builds. *)
Definition mainConfig (w : program.World) (endpoint : oauth2.Endpoint.t)
    : Config.t :=
  {| Config.Config :=
       {| oauth2.Config.ClientID := program.Getenv w "OIDCCLIENTID";
          oauth2.Config.ClientSecret := "";
          oauth2.Config.Endpoint := endpoint;
          oauth2.Config.RedirectURL := "";
          oauth2.Config.Scopes := ["openid"; "profile"; "email"] |};
     Config.DeviceEndpoint :=
       {| DeviceEndpoint.CodeURL :=
            oauth2.Endpoint.AuthURL endpoint ++ "/device" |} |}.


Module Worlds.

Definition endpoint : oauth2.Endpoint.t :=
  {| oauth2.Endpoint.AuthURL := "https://idp/auth";
     oauth2.Endpoint.TokenURL := "https://idp/token" |}.

Definition getenv (name : string) : string :=
  if String.eqb name "OIDCCLIENTID" then "cli"
  else if String.eqb name "OIDCPROVIDERURL" then "https://idp"
  else "".

(** Discovery works, the device endpoint answers the scenario's body, and
    the token endpoint says pending once (status 400) and then issues the
    token. *)
Definition happy : program.World :=
  {| program.Getenv := getenv;
     program.NewProvider := fun _ => inr endpoint;
     program.codeAnswer :=
       Replied (Sample.response 200 (json.Object Sample.deviceCodeMembers));
     program.tokenAnswers :=
       [ Sample.round 400 (Sample.errorBody "authorization_pending")
           Sample.now;
         Sample.round 200 Sample.tokenBody Sample.now ] |}.



End Worlds.

(* ===================================================================== *)
(** ** 64-bit arithmetic *)

Lemma wrap64_small (z : Z) :
  Go.minInt64 <= z <= Go.maxInt64 -> Go.wrap64 z = z.
Proof.
  unfold Go.minInt64, Go.maxInt64, Go.wrap64. intros H.
  rewrite Z.mod_small by lia. lia.
Qed.

(** Within [maxSeconds] either way, the Duration the code computes for a
    number of seconds is that many seconds. *)
Lemma mul64_Second (n : Z) :
  - maxSeconds <= n <= maxSeconds -> Go.mul64 n time.Second = seconds n.
Proof.
  unfold maxSeconds, Go.mul64, time.Second, seconds. intros H.
  apply wrap64_small. unfold Go.minInt64, Go.maxInt64. lia.
Qed.

(** One second more and the product no longer fits. *)
Example mul64_Second_overflow :
  Go.mul64 (maxSeconds + 1) time.Second <> seconds (maxSeconds + 1).
Proof. vm_compute. discriminate. Qed.

(* ===================================================================== *)
(** ** RequestDeviceCode *)

(** C8.  A device-authorization response whose status is not 200 makes
    RequestDeviceCode return no DeviceCode and an error whose text reports
    the status code and its reason phrase; the one request is the only
    thing it does, and the configuration is left as it was. *)
Theorem C8_non_200_is_an_error (c : Config.t) (resp : http.Response) :
  http.StatusCode resp <> http.StatusOK ->
  RequestDeviceCode (Replied resp) c
  = (Done (None,
           Some (errorString
                   ("request for device code authorisation returned status "
                    ++ Go.itoa (http.StatusCode resp) ++ " ("
                    ++ http.StatusText (http.StatusCode resp) ++ ")"))),
     c, [codeRequest c]).
Proof.
  intros H. apply Z.eqb_neq in H.
  unfold RequestDeviceCode, bind, PostForm, get, emit, ret, codeRequest.
  cbn -[Go.itoa http.StatusText String.append Z.eqb].
  rewrite H. reflexivity.
Qed.

Lemma C8_witness :
  RequestDeviceCode
    (Replied {| http.StatusCode := 404; http.Body := None |})
    Sample.clientConfig
  = (Done (None,
           Some (errorString
                   "request for device code authorisation returned status 404 (Not Found)")),
     Sample.clientConfig,
     [PostFormEv "https://idp/auth/device"
        [("client_id", ["cli"]); ("scope", ["openid profile email"])]]).
Proof.
  apply (C8_non_200_is_an_error Sample.clientConfig
           {| http.StatusCode := 404; http.Body := None |}).
  vm_compute. discriminate.
Defined.

(** *** Decoding a DeviceCode *)

Section DecodeDeviceCode.

Import DeviceCode DeviceCodeJSON.

Lemma overlay_zero (members : list (string * json.value)) :
  overlay members zero = denoted members.
Proof. reflexivity. Qed.

Lemma shaped_cons key j rest :
  shaped ((key, j) :: rest) = true ->
  match decode.field fields key with
  | Some f => hasType f j = true
  | None => True
  end /\ shaped rest = true.
Proof.
  unfold shaped. cbn [forallb fst snd]. intros H.
  apply andb_true_iff in H. destruct H as [H1 H2]. split; [|exact H2].
  destruct (decode.field fields key); [exact H1 | exact I].
Qed.

(** A later member of the right type for the same field hides an earlier
    one; members for other fields do not touch it. *)
Lemma lastMember_shaped members f j :
  shaped members = true -> lastMember members f = Some j ->
  hasType f j = true.
Proof.
  induction members as [|[key j0] rest IH]; cbn [lastMember]; intros Hs Hl.
  - discriminate.
  - apply shaped_cons in Hs. destruct Hs as [Hk Hr].
    destruct (lastMember rest f) as [j1|] eqn:E.
    + inversion Hl; subst. apply IH; [exact Hr | reflexivity].
    + destruct (decode.field fields key) as [f1|]; [|discriminate].
      destruct (field_eq_dec f1 f); [|discriminate].
      inversion Hl; subst. exact Hk.
Qed.

Lemma object_overlay members :
  shaped members = true ->
  forall c,
    decode.object fields store members c None = inr (overlay members c, None).
Proof.
  induction members as [|[key j] rest IH]; intros Hs c.
  - destruct c; reflexivity.
  - apply shaped_cons in Hs. destruct Hs as [Hk Hr].
    cbn [decode.object].
    pose proof (lastMember_shaped rest) as Hty.
    destruct (decode.field fields key) as [f|] eqn:Ef.
    + assert (Hst : exists c1,
                store f j c = decode.Stored c1
                /\ overlay rest c1 = overlay ((key, j) :: rest) c).
      { destruct f; destruct j as [| |[]| | |]; try discriminate Hk;
          cbn [store decode.storeString decode.storeInt64];
          try (cbn [hasType] in Hk; rewrite Hk);
          (eexists; split; [reflexivity|]);
          unfold overlay; cbn [lastMember]; rewrite Ef;
          f_equal; cbn;
          match goal with
          | |- context [lastMember rest ?g] =>
              let E := fresh "E" in
              destruct (lastMember rest g) as [[| |[]| | |]|] eqn:E;
              try reflexivity;
              try (pose proof (Hty _ _ Hr E) as H; discriminate H)
          end. }
      destruct Hst as [c1 [Hst Hov]]. rewrite Hst, (IH Hr), Hov. reflexivity.
    + rewrite (IH Hr). unfold overlay. cbn [lastMember]. rewrite Ef.
      f_equal; f_equal; f_equal;
        match goal with
        | |- context [lastMember rest ?g] =>
            destruct (lastMember rest g) as [[| |[]| | |]|]; reflexivity
        end.
Qed.

End DecodeDeviceCode.

(** A body of the DeviceCode shape decodes, without error, to the record
    its text denotes. *)
Lemma Decode_shaped (members : list (string * json.value)) :
  DeviceCodeJSON.shaped members = true ->
  DeviceCode.Decode (Some (json.Object members))
  = inr (DeviceCodeJSON.denoted members).
Proof.
  intros Hs. unfold DeviceCode.Decode, decode.Decode.
  rewrite (object_overlay members Hs). rewrite overlay_zero. reflexivity.
Qed.

(** C9.  A device-authorization response with status 200 whose body is a
    JSON object of the DeviceCode shape makes RequestDeviceCode return, with
    no error, the DeviceCode whose six fields are the values the body gives
    for device_code, user_code, verification_uri, verification_uri_complete,
    expires_in and interval. *)
Theorem C9_fields_match_the_body (c : Config.t) (resp : http.Response)
    (members : list (string * json.value)) :
  http.StatusCode resp = http.StatusOK ->
  http.Body resp = Some (json.Object members) ->
  DeviceCodeJSON.shaped members = true ->
  RequestDeviceCode (Replied resp) c
  = (Done (Some {| DeviceCode.DeviceCode :=
                     DeviceCodeJSON.stringAt members DeviceCode.device_code;
                   DeviceCode.UserCode :=
                     DeviceCodeJSON.stringAt members DeviceCode.user_code;
                   DeviceCode.VerificationURL :=
                     DeviceCodeJSON.stringAt members
                       DeviceCode.verification_uri;
                   DeviceCode.VerificationURLComplete :=
                     DeviceCodeJSON.stringAt members
                       DeviceCode.verification_uri_complete;
                   DeviceCode.ExpiresIn :=
                     DeviceCodeJSON.int64At members DeviceCode.expires_in;
                   DeviceCode.Interval :=
                     DeviceCodeJSON.int64At members DeviceCode.interval |},
           None),
     c, [codeRequest c]).
Proof.
  intros Hst Hbody Hs.
  unfold RequestDeviceCode, bind, PostForm, get, emit, ret, codeRequest.
  cbn -[DeviceCode.Decode Z.eqb Go.Join].
  rewrite Hst, Z.eqb_refl, Hbody, (Decode_shaped members Hs).
  reflexivity.
Qed.

Lemma C9_witness :
  RequestDeviceCode
    (Replied {| http.StatusCode := 200;
                http.Body := Some (json.Object Sample.deviceCodeMembers) |})
    Sample.clientConfig
  = (Done (Some Sample.deviceCode, None), Sample.clientConfig,
     [PostFormEv "https://idp/auth/device"
        [("client_id", ["cli"]); ("scope", ["openid profile email"])]]).
Proof.
  apply (C9_fields_match_the_body Sample.clientConfig
           {| http.StatusCode := 200;
              http.Body := Some (json.Object Sample.deviceCodeMembers) |}
           Sample.deviceCodeMembers);
    reflexivity.
Defined.

(* ===================================================================== *)
(** ** One pass through the polling loop *)

(** Unfolds a computation down to the triple it denotes. *)
Ltac run :=
  unfold poll, fillExpiry, dispatch, sleepInterval, doubleInterval, Sleep,
    PostForm, deref, bind, get, put, emit, panic, ret, tokenRequest,
    intervalSleep, doubled, after.

Section PollFacts.

Variable parseTime : string -> option time.Time.

Lemma poll_transport_failure round cause s :
  reply round = Failed cause ->
  poll parseTime round s
  = (Done (Return None (Some (url_Error cause))), s, [tokenRequest s]).
Proof. intros H. run. rewrite H. reflexivity. Qed.

Lemma poll_precondition_required round resp s :
  reply round = Replied resp ->
  http.StatusCode resp = http.StatusPreconditionRequired ->
  poll parseTime round s = (Done Continue, s, [tokenRequest s; intervalSleep s]).
Proof.
  intros H Hst. run. rewrite H. cbn -[Z.eqb Go.mul64].
  rewrite Hst, Z.eqb_refl. reflexivity.
Qed.

Lemma poll_unexpected_status round resp s :
  reply round = Replied resp ->
  http.StatusCode resp <> http.StatusPreconditionRequired ->
  http.StatusCode resp <> http.StatusOK ->
  http.StatusCode resp <> http.StatusBadRequest ->
  poll parseTime round s
  = (Done (Return None
             (Some (errorString
                      ("HTTP error " ++ Go.itoa (http.StatusCode resp)
                       ++ " (" ++ http.StatusText (http.StatusCode resp)
                       ++ ") when polling for OAuth token")))),
     s, [tokenRequest s]).
Proof.
  intros H H428 H200 H400. run. rewrite H.
  apply Z.eqb_neq in H428, H200, H400.
  cbn -[Z.eqb Go.itoa http.StatusText String.append].
  rewrite H428, H200, H400. reflexivity.
Qed.

(** A response the loop decodes: its status is 200 or 400. *)
Lemma status_decoded (status : Z) :
  status = http.StatusOK \/ status = http.StatusBadRequest ->
  (status =? http.StatusPreconditionRequired) = false
  /\ (negb (status =? http.StatusOK)
      && negb (status =? http.StatusBadRequest)) = false.
Proof. intros [-> | ->]; split; reflexivity. Qed.

Lemma poll_decode_error round resp err s :
  reply round = Replied resp ->
  http.StatusCode resp = http.StatusOK
  \/ http.StatusCode resp = http.StatusBadRequest ->
  tokenOrError.Decode parseTime (http.Body resp) = inl err ->
  poll parseTime round s = (Done (Return None (Some err)), s, [tokenRequest s]).
Proof.
  intros H Hst Hd. apply status_decoded in Hst. destruct Hst as [H1 H2].
  run. rewrite H. cbn -[Z.eqb tokenOrError.Decode negb andb].
  rewrite H1, H2, Hd. reflexivity.
Qed.

Lemma poll_decoded round resp token s :
  reply round = Replied resp ->
  http.StatusCode resp = http.StatusOK
  \/ http.StatusCode resp = http.StatusBadRequest ->
  tokenOrError.Decode parseTime (http.Body resp) = inr token ->
  poll parseTime round s
  = after (tokenRequest s)
      ((token1 <- fillExpiry round resp token ;; dispatch token1) s).
Proof.
  intros H Hst Hd. apply status_decoded in Hst. destruct Hst as [H1 H2].
  unfold poll, bind at 1 2, PostForm, get, emit, ret, bind, tokenRequest, after.
  rewrite H. cbn -[Z.eqb tokenOrError.Decode negb andb fillExpiry dispatch].
  rewrite H1, H2, Hd.
  destruct (fillExpiry round resp token s) as [[[token1|reason] s1] t1];
    [destruct (dispatch token1 s1) as [[r2 s2] t2]|]; reflexivity.
Qed.

(** *** Reading the expiry *)

Lemma fillExpiry_bad_request round resp token s :
  http.StatusCode resp = http.StatusBadRequest ->
  fillExpiry round resp token s = (Done token, s, []).
Proof. intros H. run. rewrite H. reflexivity. Qed.

Lemma fillExpiry_nil round resp token s :
  http.StatusCode resp <> http.StatusBadRequest ->
  tokenOrError.Token token = None ->
  fillExpiry round resp token s = (Panic nilDereference, s, []).
Proof.
  intros H Hn. apply Z.eqb_neq in H. run. rewrite H, Hn. reflexivity.
Qed.

Lemma fillExpiry_token round resp token tok s :
  http.StatusCode resp <> http.StatusBadRequest ->
  tokenOrError.Token token = Some tok ->
  fillExpiry round resp token s
  = (Done (if time.IsZero (oauth2.Token.Expiry tok)
              && negb (tokenOrError.ExpiresIn token =? 0)
           then withExpiry token tok
                  (time.Add (clock round)
                     (Go.mul64 (tokenOrError.ExpiresIn token) time.Second))
           else token),
     s, []).
Proof.
  intros H Ht. apply Z.eqb_neq in H. run. rewrite H, Ht.
  cbn -[Z.eqb Go.mul64 time.IsZero withExpiry].
  destruct (time.IsZero (oauth2.Token.Expiry tok)
            && negb (tokenOrError.ExpiresIn token =? 0)); reflexivity.
Qed.

(** Filling in the expiry leaves the error discriminant alone. *)
Lemma fillExpiry_Error round resp token token1 s s1 t :
  fillExpiry round resp token s = (Done token1, s1, t) ->
  tokenOrError.Error token1 = tokenOrError.Error token /\ s1 = s /\ t = [].
Proof.
  run.
  destruct (negb (http.StatusCode resp =? http.StatusBadRequest)).
  - destruct (tokenOrError.Token token) as [tok|]; [|discriminate].
    cbn -[Z.eqb Go.mul64 time.IsZero withExpiry].
    destruct (time.IsZero (oauth2.Token.Expiry tok)
              && negb (tokenOrError.ExpiresIn token =? 0));
      intros E; inversion E; subst; auto.
  - intros E; inversion E; subst; auto.
Qed.

(** *** The switch on the error discriminant *)

Lemma dispatch_no_error token s :
  tokenOrError.Error token = "" ->
  dispatch token s = (Done (Return (tokenOrError.Token token) None), s, []).
Proof. intros H. run. rewrite H. reflexivity. Qed.

Lemma dispatch_authorization_pending token s :
  tokenOrError.Error token = "authorization_pending" ->
  dispatch token s = (Done Continue, s, [intervalSleep s]).
Proof. intros H. run. rewrite H. reflexivity. Qed.

Lemma dispatch_slow_down token s :
  tokenOrError.Error token = "slow_down" ->
  dispatch token s = (Done Continue, doubled s, [intervalSleep (doubled s)]).
Proof. intros H. run. rewrite H. reflexivity. Qed.

Lemma dispatch_access_denied token s :
  tokenOrError.Error token = "access_denied" ->
  dispatch token s = (Done (Return None (Some ErrAccessDenied)), s, []).
Proof. intros H. run. rewrite H. reflexivity. Qed.

Lemma dispatch_other token s :
  tokenOrError.Error token <> "" ->
  tokenOrError.Error token <> "authorization_pending" ->
  tokenOrError.Error token <> "slow_down" ->
  tokenOrError.Error token <> "access_denied" ->
  dispatch token s
  = (Done (Return None
             (Some (errorString
                      ("authorization failed: " ++ tokenOrError.Error token)))),
     s, []).
Proof.
  intros H1 H2 H3 H4. apply String.eqb_neq in H1, H2, H3, H4.
  run. cbv zeta. rewrite H1, H2, H3, H4. reflexivity.
Qed.

End PollFacts.

(* ===================================================================== *)
(** ** The error discriminants *)

Section Discriminants.

Variable parseTime : string -> option time.Time.

(** Past the reading of the expiry the switch sees the discriminant that
    was decoded. *)
Lemma poll_reaches_switch round token s :
  decodes parseTime round token ->
  exists token1,
    tokenOrError.Error token1 = tokenOrError.Error token
    /\ poll parseTime round s = after (tokenRequest s) (dispatch token1 s).
Proof.
  intros [resp [Hr [Hd Hs]]].
  assert (Hst : http.StatusCode resp = http.StatusOK
                \/ http.StatusCode resp = http.StatusBadRequest)
    by (destruct Hs as [H | [H _]]; auto).
  rewrite (poll_decoded parseTime round resp token s Hr Hst Hd).
  destruct Hs as [H400 | [H200 Htok]].
  - exists token. split; [reflexivity|]. unfold bind.
    rewrite (fillExpiry_bad_request round resp token s H400).
    destruct (dispatch token s) as [[r s1] t]. reflexivity.
  - destruct (tokenOrError.Token token) as [tok|] eqn:Et; [|congruence].
    assert (Hne : http.StatusCode resp <> http.StatusBadRequest)
      by (rewrite H200; discriminate).
    pose proof (fillExpiry_token round resp token tok s Hne Et) as Hf.
    pose proof (fillExpiry_Error round resp token _ s _ _ Hf) as [He _].
    eexists. split; [exact He|]. unfold bind. rewrite Hf.
    match goal with
    | |- context [dispatch ?x s] => destruct (dispatch x s) as [[r s1] t]
    end.
    reflexivity.
Qed.

(** authorization_pending: one request, one sleep of the interval, and the
    loop goes on with the store as it was. *)
Lemma authorization_pending_keeps_polling round token s :
  decodes parseTime round token ->
  tokenOrError.Error token = "authorization_pending" ->
  poll parseTime round s = (Done Continue, s, [tokenRequest s; intervalSleep s]).
Proof.
  intros Hd He. destruct (poll_reaches_switch round token s Hd) as [t1 [E ->]].
  rewrite dispatch_authorization_pending by congruence. reflexivity.
Qed.

(** slow_down: the interval of the shared device code is doubled, the sleep
    that follows is of the doubled interval, and the loop goes on. *)
Lemma slow_down_doubles_the_interval round token s :
  decodes parseTime round token ->
  tokenOrError.Error token = "slow_down" ->
  poll parseTime round s
  = (Done Continue, doubled s, [tokenRequest s; intervalSleep (doubled s)]).
Proof.
  intros Hd He. destruct (poll_reaches_switch round token s Hd) as [t1 [E ->]].
  rewrite dispatch_slow_down by congruence. reflexivity.
Qed.

(** access_denied: the sentinel, no token, and nothing after the request,
    whatever answers would have followed. *)
Lemma access_denied_returns_the_sentinel round token rest s :
  decodes parseTime round token ->
  tokenOrError.Error token = "access_denied" ->
  WaitForDeviceAuthorization parseTime (round :: rest) s
  = (Done (Returned None (Some ErrAccessDenied)), s, [tokenRequest s]).
Proof.
  intros Hd He. cbn [WaitForDeviceAuthorization]. unfold bind.
  destruct (poll_reaches_switch round token s Hd) as [t1 [E ->]].
  rewrite dispatch_access_denied by congruence. reflexivity.
Qed.

(** Any other discriminant: a fresh error whose text ends with it, and
    nothing after the request. *)
Lemma other_discriminant_is_fatal round token rest s :
  decodes parseTime round token ->
  tokenOrError.Error token <> "" ->
  tokenOrError.Error token <> "authorization_pending" ->
  tokenOrError.Error token <> "slow_down" ->
  tokenOrError.Error token <> "access_denied" ->
  WaitForDeviceAuthorization parseTime (round :: rest) s
  = (Done (Returned None
             (Some (errorString
                      ("authorization failed: " ++ tokenOrError.Error token)))),
     s, [tokenRequest s]).
Proof.
  intros Hd H1 H2 H3 H4. cbn [WaitForDeviceAuthorization]. unfold bind.
  destruct (poll_reaches_switch round token s Hd) as [t1 [E ->]].
  rewrite dispatch_other by congruence. rewrite E. reflexivity.
Qed.

(** A status-200 answer whose body names no field of the token stops the
    program at the reading of the expiry, whatever its discriminant. *)
Lemma nil_token_panics round resp token rest s :
  reply round = Replied resp ->
  http.StatusCode resp = http.StatusOK ->
  tokenOrError.Decode parseTime (http.Body resp) = inr token ->
  tokenOrError.Token token = None ->
  WaitForDeviceAuthorization parseTime (round :: rest) s
  = (Panic nilDereference, s, [tokenRequest s]).
Proof.
  intros Hr H200 Hd Hn. cbn [WaitForDeviceAuthorization]. unfold bind at 1.
  rewrite (poll_decoded parseTime round resp token s Hr (or_introl H200) Hd).
  unfold bind. rewrite fillExpiry_nil; [reflexivity | | exact Hn].
  rewrite H200. discriminate.
Qed.

(** *** Pending N times, then a return *)

Lemma polls_app (t1 t2 : list Event) :
  polls (t1 ++ t2)%list = (polls t1 + polls t2)%nat.
Proof. unfold polls. rewrite filter_app, length_app. reflexivity. Qed.

Lemma polls_pollAndSleep s rounds :
  polls (pollAndSleep s rounds) = length rounds.
Proof.
  induction rounds as [|r rest IH]; [reflexivity|].
  unfold pollAndSleep in *. cbn [flat_map]. rewrite polls_app, IH.
  reflexivity.
Qed.

Lemma pending_rounds_then pendings rest s :
  Forall (fun round =>
            exists token,
              decodes parseTime round token
              /\ tokenOrError.Error token = "authorization_pending")
         pendings ->
  WaitForDeviceAuthorization parseTime (pendings ++ rest)%list s
  = match WaitForDeviceAuthorization parseTime rest s with
    | (r, s1, t) => (r, s1, (pollAndSleep s pendings ++ t)%list)
    end.
Proof.
  induction 1 as [|round pendings [token [Hd He]] _ IH].
  - cbn. destruct (WaitForDeviceAuthorization parseTime rest s) as [[r s1] t].
    reflexivity.
  - cbn [app WaitForDeviceAuthorization]. unfold bind.
    rewrite (authorization_pending_keeps_polling round token s Hd He).
    rewrite IH.
    destruct (WaitForDeviceAuthorization parseTime rest s) as [[r s1] t].
    reflexivity.
Qed.

(** After N answers of authorization_pending that the loop gets through,
    an answer on which the pass returns ends the run with that return:
    N + 1 requests, a sleep of the interval after each of the first N, and
    the device code as it was. *)
Lemma pending_then_return pendings final tok err s :
  Forall (fun round =>
            exists token,
              decodes parseTime round token
              /\ tokenOrError.Error token = "authorization_pending")
         pendings ->
  poll parseTime final s = (Done (Return tok err), s, [tokenRequest s]) ->
  let run := WaitForDeviceAuthorization parseTime (pendings ++ [final])%list s in
  run = (Done (Returned tok err), s,
         (pollAndSleep s pendings ++ [tokenRequest s])%list)
  /\ polls (snd run) = S (length pendings).
Proof.
  intros Hp Hf run. subst run. rewrite (pending_rounds_then _ _ _ Hp).
  cbn [WaitForDeviceAuthorization]. unfold bind. rewrite Hf.
  cbn [ret snd app]. split; [reflexivity|].
  rewrite polls_app, polls_pollAndSleep. cbn. lia.
Qed.

End Discriminants.

(** The scenario with the pending answer sent under status 400: one sleep
    of five seconds, two requests, and the token with its expiry filled
    in. *)
Example pending_400_then_token :
  WaitForDeviceAuthorization Sample.noTimestamp
    [ Sample.round 400 (Sample.errorBody "authorization_pending") Sample.now;
      Sample.round 200 Sample.tokenBody Sample.now ]
    Sample.store
  = (Done (Returned
             (Some {| oauth2.Token.AccessToken := "tok123";
                      oauth2.Token.TokenType := "Bearer";
                      oauth2.Token.RefreshToken := "";
                      oauth2.Token.Expiry := Sample.now + seconds 3600 |})
             None),
     Sample.store,
     [Sample.pollRequest; SleepEv (seconds 5); Sample.pollRequest]).
Proof. reflexivity. Qed.

(** slow_down under status 400: the interval of the device code goes from
    5 to 10 and the sleep before the second request is of ten seconds. *)
Example slow_down_400_then_token :
  WaitForDeviceAuthorization Sample.noTimestamp
    [ Sample.round 400 (Sample.errorBody "slow_down") Sample.now;
      Sample.round 400 Sample.tokenBody Sample.now ]
    Sample.store
  = (Done (Returned
             (Some {| oauth2.Token.AccessToken := "tok123";
                      oauth2.Token.TokenType := "Bearer";
                      oauth2.Token.RefreshToken := "";
                      oauth2.Token.Expiry := time.zero |})
             None),
     {| config := Sample.clientConfig;
        code := DeviceCode.withInterval Sample.deviceCode 10 |},
     [Sample.pollRequest; SleepEv (seconds 10); Sample.pollRequest]).
Proof. reflexivity. Qed.

(** access_denied and another discriminant under status 400. *)
Example access_denied_400 :
  WaitForDeviceAuthorization Sample.noTimestamp
    [ Sample.round 400 (Sample.errorBody "access_denied") Sample.now;
      Sample.round 200 Sample.tokenBody Sample.now ]
    Sample.store
  = (Done (Returned None (Some ErrAccessDenied)), Sample.store,
     [Sample.pollRequest]).
Proof. reflexivity. Qed.

Example expired_token_400 :
  WaitForDeviceAuthorization Sample.noTimestamp
    [ Sample.round 400 (Sample.errorBody "expired_token") Sample.now ]
    Sample.store
  = (Done (Returned None
             (Some (errorString "authorization failed: expired_token"))),
     Sample.store, [Sample.pollRequest]).
Proof. reflexivity. Qed.

(** A member name is matched without regard to case, and the first member
    that names a field of the token allocates it. *)
Example folded_member_allocates_token :
  tokenOrError.Decode Sample.noTimestamp
    (Some (json.Object [ ("ERROR", json.String "slow_down");
                         ("Token_Type", json.Null) ]))
  = inr {| tokenOrError.Token := Some oauth2.Token.zero;
           tokenOrError.Error := "slow_down";
           tokenOrError.ErrorDescription := "";
           tokenOrError.ExpiresIn := 0 |}.
Proof. reflexivity. Qed.

(* ===================================================================== *)
(** ** The frame of the poller *)

Lemma sameButInterval_refl s : sameButInterval s s.
Proof. unfold sameButInterval. repeat split. Qed.

Lemma sameButInterval_trans s1 s2 s3 :
  sameButInterval s1 s2 -> sameButInterval s2 s3 -> sameButInterval s1 s3.
Proof.
  unfold sameButInterval. intros H12 H23.
  repeat match goal with H : _ /\ _ |- _ => destruct H end.
  repeat split; congruence.
Qed.

Lemma sameButInterval_doubled s : sameButInterval s (doubled s).
Proof. unfold sameButInterval, doubled. cbn. repeat split. Qed.

Lemma framed_ret {A} (a : A) : framed (ret a).
Proof. intros s. apply sameButInterval_refl. Qed.

Lemma framed_panic {A} reason : framed (@panic Store A reason).
Proof. intros s. apply sameButInterval_refl. Qed.

Lemma framed_get : framed (@get Store).
Proof. intros s. apply sameButInterval_refl. Qed.

Lemma framed_emit e : framed (@emit Store e).
Proof. intros s. apply sameButInterval_refl. Qed.

(** Sequencing keeps the frame when both parts do. *)
Lemma framed_bind {A B} (m : M Store A) (k : A -> M Store B) :
  framed m -> (forall a, framed (k a)) -> framed (bind m k).
Proof.
  intros Hm Hk s. unfold bind, finalStore. specialize (Hm s).
  unfold finalStore in Hm.
  destruct (m s) as [[[a|reason] s1] t1]; cbn [fst snd] in *.
  - specialize (Hk a s1). unfold finalStore in Hk.
    destruct (k a s1) as [[r s2] t2]; cbn [fst snd] in *.
    eapply sameButInterval_trans; eassumption.
  - exact Hm.
Qed.

Create HintDb frame.

#[local] Hint Resolve framed_ret framed_panic framed_get framed_emit : frame.

Lemma framed_deref {A} (p : option A) : framed (@deref Store A p).
Proof. destruct p; cbn [deref]; auto with frame. Qed.

Lemma framed_PostForm answer target data :
  framed (@PostForm Store answer target data).
Proof. unfold PostForm. apply framed_bind; auto with frame. Qed.

Lemma framed_sleepInterval : framed sleepInterval.
Proof.
  unfold sleepInterval. apply framed_bind; [auto with frame|].
  intros s. unfold Sleep. auto with frame.
Qed.

(** The one write of the package: [code.Interval *= 2]. *)
Lemma framed_doubleInterval : framed doubleInterval.
Proof. intros s. apply (sameButInterval_doubled s). Qed.

#[local] Hint Resolve framed_deref framed_PostForm framed_sleepInterval
  framed_doubleInterval : frame.

Section Frame.

Variable parseTime : string -> option time.Time.

Lemma framed_fillExpiry round resp token :
  framed (fillExpiry round resp token).
Proof.
  unfold fillExpiry.
  destruct (negb (http.StatusCode resp =? http.StatusBadRequest));
    [|auto with frame].
  apply framed_bind; [auto with frame|]. intros tok.
  destruct (time.IsZero (oauth2.Token.Expiry tok)
            && negb (tokenOrError.ExpiresIn token =? 0)); auto with frame.
Qed.

Lemma framed_dispatch token : framed (dispatch token).
Proof.
  unfold dispatch. cbv zeta.
  repeat match goal with
         | |- framed (if ?b then _ else _) => destruct b
         | |- framed (bind _ _) => apply framed_bind; [|intros ?]
         end; auto with frame.
Qed.

Lemma framed_poll round : framed (poll parseTime round).
Proof.
  unfold poll.
  apply framed_bind; [auto with frame|]. intros s.
  apply framed_bind; [auto with frame|]. intros [err|resp];
    [auto with frame|].
  destruct (http.StatusCode resp =? http.StatusPreconditionRequired).
  { apply framed_bind; [|intros ?]; auto with frame. }
  destruct (negb (http.StatusCode resp =? http.StatusOK)
            && negb (http.StatusCode resp =? http.StatusBadRequest));
    [auto with frame|].
  destruct (tokenOrError.Decode parseTime (http.Body resp)) as [err|token];
    [auto with frame|].
  apply framed_bind; [apply framed_fillExpiry | apply framed_dispatch].
Qed.

Lemma framed_WaitForDeviceAuthorization rounds :
  framed (WaitForDeviceAuthorization parseTime rounds).
Proof.
  induction rounds as [|round rest IH]; cbn [WaitForDeviceAuthorization].
  - auto with frame.
  - apply framed_bind; [apply framed_poll|].
    intros [|tok err]; [exact IH | auto with frame].
Qed.

End Frame.

(** C10.  Whatever the answers of the token endpoint and however the run
    ends (a token, ErrAccessDenied, another error, or still polling), the
    objects behind the arguments of WaitForDeviceAuthorization are as they
    were, but for the Interval of the DeviceCode: the Config is unchanged,
    and so are the DeviceCode, UserCode, VerificationURL,
    VerificationURLComplete and ExpiresIn fields. *)
Theorem C10_only_Interval_is_written (parseTime : string -> option time.Time)
    (rounds : list Round) (s : Store) :
  let s1 := finalStore (WaitForDeviceAuthorization parseTime rounds s) in
  config s1 = config s
  /\ DeviceCode.DeviceCode (code s1) = DeviceCode.DeviceCode (code s)
  /\ DeviceCode.UserCode (code s1) = DeviceCode.UserCode (code s)
  /\ DeviceCode.VerificationURL (code s1) = DeviceCode.VerificationURL (code s)
  /\ DeviceCode.VerificationURLComplete (code s1)
     = DeviceCode.VerificationURLComplete (code s)
  /\ DeviceCode.ExpiresIn (code s1) = DeviceCode.ExpiresIn (code s).
Proof. exact (framed_WaitForDeviceAuthorization parseTime rounds s). Qed.

(* ===================================================================== *)
(** ** The loop around the passes *)

Section Loop.

Variable parseTime : string -> option time.Time.

(** A pass that ends in [continue] hands the store to the next pass. *)
Lemma Wait_continues round rest s s1 e :
  poll parseTime round s = (Done Continue, s1, [tokenRequest s; e]) ->
  WaitForDeviceAuthorization parseTime (round :: rest) s
  = after (tokenRequest s)
      (after e (WaitForDeviceAuthorization parseTime rest s1)).
Proof.
  intros H. cbn [WaitForDeviceAuthorization]. unfold bind. rewrite H.
  destruct (WaitForDeviceAuthorization parseTime rest s1) as [[r s2] t].
  reflexivity.
Qed.

(** A pass that returns ends the run: the answers that would have followed
    are never asked for. *)
Lemma Wait_returns round rest s s1 tok err t :
  poll parseTime round s = (Done (Return tok err), s1, t) ->
  WaitForDeviceAuthorization parseTime (round :: rest) s
  = (Done (Returned tok err), s1, t).
Proof.
  intros H. cbn [WaitForDeviceAuthorization]. unfold bind. rewrite H.
  cbn [ret]. rewrite app_nil_r. reflexivity.
Qed.

(** After a slow_down answer that the loop gets through, the sleep before
    the next poll is of the doubled interval, and the next poll starts from
    the store with the doubled interval. *)
Lemma slow_down_then round token rest s :
  decodes parseTime round token ->
  tokenOrError.Error token = "slow_down" ->
  WaitForDeviceAuthorization parseTime (round :: rest) s
  = after (tokenRequest s)
      (after (intervalSleep (doubled s))
         (WaitForDeviceAuthorization parseTime rest (doubled s))).
Proof.
  intros Hd He. apply Wait_continues.
  apply (slow_down_doubles_the_interval parseTime round token s Hd He).
Qed.

(** The interval the poller works with after a doubling that fits. *)
Lemma doubled_Interval s :
  - 2 ^ 62 <= DeviceCode.Interval (code s) < 2 ^ 62 ->
  DeviceCode.Interval (code (doubled s)) = 2 * DeviceCode.Interval (code s).
Proof.
  intros H. unfold doubled, Go.mul64. cbn [code DeviceCode.withInterval
    DeviceCode.Interval].
  rewrite wrap64_small; [lia|]. unfold Go.minInt64, Go.maxInt64. lia.
Qed.

End Loop.

(* ===================================================================== *)
(** ** The HTTP status of a poll *)

(** C1, as the code has it.  A poll answered with status 428 sleeps for the
    interval (of 0 to [maxSeconds] seconds) and goes on with the next poll,
    with the store as it was and whatever the body holds; a poll answered
    with a status other than 200, 400 and 428 ends the run instead: no
    token, no sleep, no further poll, and an error whose text reports the
    status code and its reason phrase, again whatever the body holds. *)
Theorem C1_status_428_waits_others_fail
    (parseTime : string -> option time.Time) (round : Round)
    (rest : list Round) (resp : http.Response) (s : Store) :
  reply round = Replied resp ->
  (http.StatusCode resp = 428 ->
   0 <= DeviceCode.Interval (code s) <= maxSeconds ->
   WaitForDeviceAuthorization parseTime (round :: rest) s
   = after (tokenRequest s)
       (after (SleepEv (seconds (DeviceCode.Interval (code s))))
          (WaitForDeviceAuthorization parseTime rest s)))
  /\ (http.StatusCode resp <> 200 ->
      http.StatusCode resp <> 400 ->
      http.StatusCode resp <> 428 ->
      WaitForDeviceAuthorization parseTime (round :: rest) s
      = (Done (Returned None
                 (Some (errorString
                          ("HTTP error " ++ Go.itoa (http.StatusCode resp)
                           ++ " (" ++ http.StatusText (http.StatusCode resp)
                           ++ ") when polling for OAuth token")))),
         s, [tokenRequest s])).
Proof.
  intros Hr. split.
  - intros H428 Hi.
    rewrite <- mul64_Second by (unfold maxSeconds in *; lia).
    apply Wait_continues.
    apply (poll_precondition_required parseTime round resp s Hr H428).
  - intros H200 H400 H428. apply Wait_returns.
    apply (poll_unexpected_status parseTime round resp s Hr H428 H200 H400).
Qed.

Lemma C1_witness :
  WaitForDeviceAuthorization Sample.noTimestamp
    [ Sample.round 428 (Sample.errorBody "access_denied") Sample.now ]
    Sample.store
  = (Done StillPolling, Sample.store,
     [Sample.pollRequest; SleepEv 5000000000])
  /\ WaitForDeviceAuthorization Sample.noTimestamp
       [ Sample.round 503 (Sample.errorBody "access_denied") Sample.now ]
       Sample.store
     = (Done (Returned None
                (Some (errorString
                         "HTTP error 503 (Service Unavailable) when polling for OAuth token"))),
        Sample.store, [Sample.pollRequest]).
Proof.
  split.
  - refine (proj1 (C1_status_428_waits_others_fail Sample.noTimestamp
                     (Sample.round 428 (Sample.errorBody "access_denied")
                        Sample.now) []
                     (Sample.response 428 (Sample.errorBody "access_denied"))
                     Sample.store eq_refl) eq_refl _).
    vm_compute. split; discriminate.
  - refine (proj2 (C1_status_428_waits_others_fail Sample.noTimestamp
                     (Sample.round 503 (Sample.errorBody "access_denied")
                        Sample.now) []
                     (Sample.response 503 (Sample.errorBody "access_denied"))
                     Sample.store eq_refl) _ _ _);
      vm_compute; discriminate.
Defined.

(** Status 500 is none of 200, 400 and 428, yet the run does not sleep and
    poll again: it returns the HTTP error after the one request, and the
    token that the next answer holds is never asked for. *)
Lemma C1_counterexample :
  WaitForDeviceAuthorization Sample.noTimestamp
    [ Sample.round 500 Sample.tokenBody Sample.now;
      Sample.round 200 Sample.tokenBody Sample.now ]
    Sample.store
  = (Done (Returned None
             (Some (errorString
                      "HTTP error 500 (Internal Server Error) when polling for OAuth token"))),
     Sample.store, [Sample.pollRequest])
  /\ WaitForDeviceAuthorization Sample.noTimestamp
       [ Sample.round 500 Sample.tokenBody Sample.now;
         Sample.round 200 Sample.tokenBody Sample.now ]
       Sample.store
     <> after Sample.pollRequest
          (after (SleepEv (seconds 5))
             (WaitForDeviceAuthorization Sample.noTimestamp
                [ Sample.round 200 Sample.tokenBody Sample.now ]
                Sample.store)).
Proof. split; [reflexivity | vm_compute; discriminate]. Qed.

(* ===================================================================== *)
(** ** A decoded answer without an error discriminant *)

(** C4, as the code has it.  A decoded answer (status 200 or 400) whose
    error discriminant is empty and whose body named a field of the token
    ends the run with that token and no error, after the one request.  Its
    access token, type and refresh token are as decoded.  With status 200,
    an unset expiry and an expires_in that is not zero (and within
    [maxSeconds] either way), the expiry returned is the clock's reading
    plus expires_in seconds; with status 400, or an expiry that is set, or
    expires_in zero, the expiry is returned as decoded. *)
Theorem C4_token_is_returned
    (parseTime : string -> option time.Time) (round : Round)
    (rest : list Round) (resp : http.Response) (token : tokenOrError.t)
    (tok : oauth2.Token.t) (s : Store) :
  reply round = Replied resp ->
  http.StatusCode resp = 200 \/ http.StatusCode resp = 400 ->
  tokenOrError.Decode parseTime (http.Body resp) = inr token ->
  tokenOrError.Error token = "" ->
  tokenOrError.Token token = Some tok ->
  exists tok1,
    WaitForDeviceAuthorization parseTime (round :: rest) s
    = (Done (Returned (Some tok1) None), s, [tokenRequest s])
    /\ oauth2.Token.AccessToken tok1 = oauth2.Token.AccessToken tok
    /\ oauth2.Token.TokenType tok1 = oauth2.Token.TokenType tok
    /\ oauth2.Token.RefreshToken tok1 = oauth2.Token.RefreshToken tok
    /\ (http.StatusCode resp = 200 ->
        oauth2.Token.Expiry tok = time.zero ->
        tokenOrError.ExpiresIn token <> 0 ->
        - maxSeconds <= tokenOrError.ExpiresIn token <= maxSeconds ->
        oauth2.Token.Expiry tok1
        = clock round + seconds (tokenOrError.ExpiresIn token))
    /\ (http.StatusCode resp = 400
        \/ oauth2.Token.Expiry tok <> time.zero
        \/ tokenOrError.ExpiresIn token = 0 ->
        oauth2.Token.Expiry tok1 = oauth2.Token.Expiry tok).
Proof.
  intros Hr Hst Hd He Ht.
  pose proof (poll_decoded parseTime round resp token s Hr Hst Hd) as Hp.
  unfold bind in Hp.
  destruct Hst as [H200 | H400].
  - assert (Hne : http.StatusCode resp <> http.StatusBadRequest)
      by (rewrite H200; discriminate).
    rewrite (fillExpiry_token round resp token tok s Hne Ht) in Hp.
    unfold time.IsZero, time.zero in *.
    destruct (Z.eqb_spec (oauth2.Token.Expiry tok) 0) as [Hz | Hz];
      [destruct (Z.eqb_spec (tokenOrError.ExpiresIn token) 0) as [Hx | Hx]|];
      cbn [andb negb] in Hp;
      rewrite dispatch_no_error in Hp
        by (try unfold withExpiry, tokenOrError.withToken; cbn; exact He);
      cbn [after] in Hp.
    + exists tok. rewrite (Wait_returns parseTime _ rest _ _ _ _ _ Hp), Ht.
      repeat split; try reflexivity. intros _ _ Hc. contradiction.
    + eexists. rewrite (Wait_returns parseTime _ rest _ _ _ _ _ Hp).
      unfold withExpiry, tokenOrError.withToken; cbn [tokenOrError.Token].
      split; [reflexivity|]. cbn. repeat split.
      * intros _ _ _ Hb. unfold time.Add. rewrite mul64_Second by exact Hb.
        reflexivity.
      * intros [Hc | [Hc | Hc]]; [rewrite H200 in Hc; discriminate | | ];
          contradiction.
    + exists tok. rewrite (Wait_returns parseTime _ rest _ _ _ _ _ Hp), Ht.
      repeat split; try reflexivity. intros _ Hc. contradiction.
  - rewrite (fillExpiry_bad_request round resp token s H400) in Hp.
    rewrite dispatch_no_error in Hp by exact He. cbn [after] in Hp.
    exists tok. rewrite (Wait_returns parseTime _ rest _ _ _ _ _ Hp), Ht.
    repeat split; try reflexivity.
    intros Hc. rewrite H400 in Hc. discriminate.
Qed.

Lemma C4_witness :
  exists tok1,
    WaitForDeviceAuthorization Sample.noTimestamp
      [ Sample.round 200 Sample.tokenBody Sample.now ] Sample.store
    = (Done (Returned (Some tok1) None), Sample.store, [Sample.pollRequest])
    /\ oauth2.Token.AccessToken tok1 = "tok123"
    /\ oauth2.Token.Expiry tok1 = Sample.now + 3600000000000.
Proof.
  destruct (C4_token_is_returned Sample.noTimestamp
              (Sample.round 200 Sample.tokenBody Sample.now) []
              (Sample.response 200 Sample.tokenBody)
              {| tokenOrError.Token :=
                   Some {| oauth2.Token.AccessToken := "tok123";
                           oauth2.Token.TokenType := "Bearer";
                           oauth2.Token.RefreshToken := "";
                           oauth2.Token.Expiry := 0 |};
                 tokenOrError.Error := "";
                 tokenOrError.ErrorDescription := "";
                 tokenOrError.ExpiresIn := 3600 |}
              {| oauth2.Token.AccessToken := "tok123";
                 oauth2.Token.TokenType := "Bearer";
                 oauth2.Token.RefreshToken := "";
                 oauth2.Token.Expiry := 0 |}
              Sample.store eq_refl (or_introl eq_refl) eq_refl eq_refl eq_refl)
    as [tok1 [Hrun [Ha [_ [_ [He _]]]]]].
  exists tok1. split; [exact Hrun|]. split; [exact Ha|].
  apply He; [reflexivity | reflexivity | discriminate |].
  vm_compute. split; discriminate.
Defined.

(** With status 400 the same body, whose expiry is unset and whose
    expires_in is 3600, comes back with the expiry still unset, not the
    clock's reading plus 3600 seconds. *)
Lemma C4_counterexample :
  tokenOrError.Decode Sample.noTimestamp (Some Sample.tokenBody)
  = inr {| tokenOrError.Token :=
             Some {| oauth2.Token.AccessToken := "tok123";
                     oauth2.Token.TokenType := "Bearer";
                     oauth2.Token.RefreshToken := "";
                     oauth2.Token.Expiry := time.zero |};
           tokenOrError.Error := "";
           tokenOrError.ErrorDescription := "";
           tokenOrError.ExpiresIn := 3600 |}
  /\ WaitForDeviceAuthorization Sample.noTimestamp
       [ Sample.round 400 Sample.tokenBody Sample.now ] Sample.store
     = (Done (Returned
                (Some {| oauth2.Token.AccessToken := "tok123";
                         oauth2.Token.TokenType := "Bearer";
                         oauth2.Token.RefreshToken := "";
                         oauth2.Token.Expiry := time.zero |})
                None),
        Sample.store, [Sample.pollRequest])
  /\ time.zero <> Sample.now + seconds 3600.
Proof. repeat split. vm_compute. discriminate. Qed.

(* ===================================================================== *)
(** ** Answers that carry an error discriminant with status 200 *)

(** C3.  The body of a status-200 answer that holds an error member and
    none of the token's members decodes with the embedded token pointer
    still nil, and the poll stops with a nil pointer dereference where it
    reads the expiry. *)
Theorem C3_error_only_body_has_nil_token
    (parseTime : string -> option time.Time) :
  tokenOrError.Decode parseTime
    (Some (Sample.errorBody "authorization_pending"))
  = inr {| tokenOrError.Token := None;
           tokenOrError.Error := "authorization_pending";
           tokenOrError.ErrorDescription := "";
           tokenOrError.ExpiresIn := 0 |}
  /\ poll parseTime
       (Sample.round 200 (Sample.errorBody "authorization_pending") Sample.now)
       Sample.store
     = (Panic nilDereference, Sample.store, [Sample.pollRequest]).
Proof. split; reflexivity. Qed.

(** C2.  On the scenario of one authorization_pending answer (status 200,
    only the error member) followed by a token, the run makes one request
    and stops with a nil pointer dereference: no sleep, no second poll, no
    token. *)
Theorem C2_pending_with_status_200_panics
    (parseTime : string -> option time.Time) :
  WaitForDeviceAuthorization parseTime
    [ Sample.round 200 (Sample.errorBody "authorization_pending") Sample.now;
      Sample.round 200 Sample.tokenBody Sample.now ]
    Sample.store
  = (Panic nilDereference, Sample.store, [Sample.pollRequest]).
Proof. reflexivity. Qed.

(** C5.  A slow_down answer with status 200 and only the error member
    stops the run with a nil pointer dereference before the switch: the
    interval is not doubled and there is no sleep. *)
Theorem C5_slow_down_with_status_200_panics
    (parseTime : string -> option time.Time) :
  WaitForDeviceAuthorization parseTime
    [ Sample.round 200 (Sample.errorBody "slow_down") Sample.now;
      Sample.round 200 Sample.tokenBody Sample.now ]
    Sample.store
  = (Panic nilDereference, Sample.store, [Sample.pollRequest]).
Proof. reflexivity. Qed.

(** C6.  An access_denied answer with status 200 and only the error member
    stops the run with a nil pointer dereference: ErrAccessDenied is not
    returned. *)
Theorem C6_access_denied_with_status_200_panics
    (parseTime : string -> option time.Time) :
  WaitForDeviceAuthorization parseTime
    [ Sample.round 200 (Sample.errorBody "access_denied") Sample.now ]
    Sample.store
  = (Panic nilDereference, Sample.store, [Sample.pollRequest]).
Proof. reflexivity. Qed.

(** C7.  An answer with status 200 whose only member is another error
    discriminant, here expired_token, stops the run with a nil pointer
    dereference: no error embedding the discriminant is returned. *)
Theorem C7_other_error_with_status_200_panics
    (parseTime : string -> option time.Time) :
  WaitForDeviceAuthorization parseTime
    [ Sample.round 200 (Sample.errorBody "expired_token") Sample.now ]
    Sample.store
  = (Panic nilDereference, Sample.store, [Sample.pollRequest]).
Proof. reflexivity. Qed.

(* ===================================================================== *)
(** ** Every pass, case by case *)

Section Passes.

Variable parseTime : string -> option time.Time.

(** A pass sends its request and then either sleeps for the interval of the
    store it leaves and continues, the store being as before or with the
    interval doubled, or ends (returns or panics) with the store as before
    and without a sleep. *)
Lemma poll_cases round s :
  exists r s1 t,
    poll parseTime round s = (r, s1, t)
    /\ ((r = Done Continue
         /\ (s1 = s \/ s1 = doubled s)
         /\ t = [tokenRequest s; intervalSleep s1])
        \/ (r <> Done Continue /\ s1 = s /\ t = [tokenRequest s])).
Proof.
  destruct (reply round) as [cause|resp] eqn:Hr.
  { rewrite (poll_transport_failure parseTime round cause s Hr).
    do 3 eexists. split; [reflexivity|]. right. repeat split. discriminate. }
  destruct (Z.eq_dec (http.StatusCode resp) http.StatusPreconditionRequired)
    as [H428|H428].
  { rewrite (poll_precondition_required parseTime round resp s Hr H428).
    do 3 eexists. split; [reflexivity|]. left. auto. }
  destruct (Z.eq_dec (http.StatusCode resp) http.StatusOK) as [H200|H200];
    [|destruct (Z.eq_dec (http.StatusCode resp) http.StatusBadRequest)
        as [H400|H400]].
  3: { rewrite (poll_unexpected_status parseTime round resp s Hr H428 H200 H400).
       do 3 eexists. split; [reflexivity|]. right. repeat split. discriminate. }
  all: assert (Hst : http.StatusCode resp = http.StatusOK
                     \/ http.StatusCode resp = http.StatusBadRequest) by auto.
  all: destruct (tokenOrError.Decode parseTime (http.Body resp))
         as [err|token] eqn:Hd;
       [ rewrite (poll_decode_error parseTime round resp err s Hr Hst Hd);
         do 3 eexists; (split; [reflexivity|]); right; repeat split; discriminate
       | rewrite (poll_decoded parseTime round resp token s Hr Hst Hd) ].
  all: unfold bind.
  all: destruct (fillExpiry round resp token s) as [[[token1|reason] s1] t1] eqn:Hf.
  all: try (pose proof (fillExpiry_Error round resp token _ _ _ _ Hf)
              as [He [-> ->]]).
  all: try (unfold fillExpiry, deref, bind, panic, ret in Hf;
            destruct (negb (http.StatusCode resp =? http.StatusBadRequest));
            [destruct (tokenOrError.Token token);
             [cbn in Hf;
              destruct (time.IsZero _ && negb _) in Hf; discriminate Hf
             |inversion Hf; subst]
            |discriminate Hf];
            do 3 eexists; (split; [reflexivity|]); right;
            repeat split; discriminate).
  all: unfold dispatch; cbv zeta;
       repeat match goal with
              | |- context [String.eqb ?a ?b] => destruct (String.eqb a b)
              end;
       run; cbn; do 3 eexists; (split; [reflexivity|]);
       first [ left; repeat split; auto; fail
             | right; repeat split; discriminate ].
Qed.

End Passes.

(* ===================================================================== *)
(** ** The shape of a run *)

Section Runs.

Variable parseTime : string -> option time.Time.

(** The loop, one pass at a time. *)
Lemma Wait_cons_cases round rest s :
  (exists s1,
      (s1 = s \/ s1 = doubled s)
      /\ WaitForDeviceAuthorization parseTime (round :: rest) s
         = after (tokenRequest s)
             (after (intervalSleep s1)
                (WaitForDeviceAuthorization parseTime rest s1)))
  \/ (exists r,
         r <> Done StillPolling
         /\ WaitForDeviceAuthorization parseTime (round :: rest) s
            = (r, s, [tokenRequest s])).
Proof.
  destruct (poll_cases parseTime round s) as [r [s1 [t [Hp Hc]]]].
  destruct Hc as [[-> [Hs ->]] | [Hr [-> ->]]].
  - left. exists s1. split; [exact Hs|]. apply Wait_continues. exact Hp.
  - right. cbn [WaitForDeviceAuthorization]. unfold bind. rewrite Hp.
    destruct r as [[|tok err]|reason].
    + contradiction.
    + eexists. split; [|reflexivity]. discriminate.
    + eexists. split; [|reflexivity]. discriminate.
Qed.

Lemma tokenRequest_doubled s : tokenRequest (doubled s) = tokenRequest s.
Proof. reflexivity. Qed.

Lemma traceOf_after {A} e (x : result A * Store * list Event) :
  traceOf (after e x) = e :: traceOf x.
Proof. destruct x as [[r s] t]. reflexivity. Qed.

Lemma resultOf_after {A} e (x : result A * Store * list Event) :
  resultOf (after e x) = resultOf x.
Proof. destruct x as [[r s] t]. reflexivity. Qed.

Lemma finalStore_after {A} e (x : result A * Store * list Event) :
  finalStore (after e x) = finalStore x.
Proof. destruct x as [[r s] t]. reflexivity. Qed.

Lemma polls_cons e t :
  polls (e :: t)
  = match e with PostFormEv _ _ => S (polls t) | SleepEv _ => polls t end.
Proof. destruct e; reflexivity. Qed.

Lemma sleeps_cons e t :
  sleeps (e :: t)
  = match e with PostFormEv _ _ => sleeps t | SleepEv _ => S (sleeps t) end.
Proof. destruct e; reflexivity. Qed.

(** Requests and sleeps take turns.  While the run is still in the loop it
    has sent one request per answer and slept after each; once it has
    returned or panicked, the last thing it did was a request. *)
Lemma run_is_paced rounds :
  forall s,
    let run := WaitForDeviceAuthorization parseTime rounds s in
    paced (traceOf run) = true
    /\ (polls (traceOf run) <= length rounds)%nat
    /\ (resultOf run = Done StillPolling ->
        polls (traceOf run) = length rounds
        /\ sleeps (traceOf run) = length rounds)
    /\ (resultOf run <> Done StillPolling ->
        polls (traceOf run) = S (sleeps (traceOf run))).
Proof.
  induction rounds as [|round rest IH]; intros s run; subst run.
  - cbn. repeat split; auto. intros H. contradiction.
  - destruct (Wait_cons_cases round rest s) as [[s1 [_ ->]] | [r [Hr ->]]].
    + specialize (IH s1). cbv zeta in IH.
      destruct IH as [Hp [Hle [Hstill Hdone]]].
      rewrite !traceOf_after, !resultOf_after.
      unfold intervalSleep, tokenRequest.
      rewrite !polls_cons, !sleeps_cons. cbn [paced length].
      split; [exact Hp|]. split; [lia|]. split.
      * intros H. destruct (Hstill H) as [H1 H2]. split; lia.
      * intros H. rewrite (Hdone H). reflexivity.
    + unfold traceOf, resultOf, tokenRequest. cbn [fst snd].
      rewrite polls_cons. cbn. split; [reflexivity|]. split; [lia|]. split.
      * intros H. contradiction.
      * reflexivity.
Qed.

(** Every request of a run is the request of its first pass. *)
Lemma run_requests rounds :
  forall s e,
    In e (traceOf (WaitForDeviceAuthorization parseTime rounds s)) ->
    e = tokenRequest s \/ exists d, e = SleepEv d.
Proof.
  induction rounds as [|round rest IH]; intros s e.
  - cbn. contradiction.
  - destruct (Wait_cons_cases round rest s) as [[s1 [Hs ->]] | [r [Hr ->]]].
    + rewrite !traceOf_after. cbn [In]. intros [<- | [<- | Hin]].
      * left. reflexivity.
      * right. unfold intervalSleep. eexists. reflexivity.
      * destruct (IH s1 e Hin) as [-> | Hd]; [left | right; exact Hd].
        destruct Hs as [-> | ->]; reflexivity.
    + cbn. intros [<- | []]. left. reflexivity.
Qed.

(** Every sleep is of the interval doubled some number of times, and so is
    the interval the run leaves. *)
Lemma run_intervals rounds :
  forall s,
    let run := WaitForDeviceAuthorization parseTime rounds s in
    (exists k, (k <= sleeps (traceOf run))%nat
               /\ DeviceCode.Interval (code (finalStore run))
                  = doublings k (DeviceCode.Interval (code s)))
    /\ (forall d, In (SleepEv d) (traceOf run) ->
        exists k, (k <= length rounds)%nat
                  /\ d = Go.mul64 (doublings k (DeviceCode.Interval (code s)))
                           time.Second).
Proof.
  induction rounds as [|round rest IH]; intros s run; subst run.
  - cbn. split; [exists 0%nat; split; [lia | reflexivity] | contradiction].
  - destruct (Wait_cons_cases round rest s) as [[s1 [Hs ->]] | [r [Hr ->]]].
    + rewrite !traceOf_after, !finalStore_after.
      destruct (IH s1) as [[k [Hk Hi]] Hsl]. cbv zeta in *.
      assert (Hs1 : exists j, (j <= 1)%nat
                /\ DeviceCode.Interval (code s1)
                   = doublings j (DeviceCode.Interval (code s))).
      { destruct Hs as [-> | ->];
          [exists 0%nat | exists 1%nat]; split; try lia; reflexivity. }
      destruct Hs1 as [j [Hj Hs1]].
      assert (Hcomp : forall n,
                 doublings n (DeviceCode.Interval (code s1))
                 = doublings (n + j) (DeviceCode.Interval (code s))).
      { intros n. rewrite Hs1. unfold doublings.
        rewrite Nat.iter_add. reflexivity. }
      split.
      * exists (k + j)%nat. split.
        -- unfold intervalSleep, tokenRequest.
           rewrite !sleeps_cons. lia.
        -- rewrite Hi. apply Hcomp.
      * intros d [Hd | [Hd | Hd]].
        -- discriminate Hd.
        -- unfold intervalSleep in Hd. inversion Hd; subst d.
           exists j. split; [cbn [length]; lia|]. rewrite Hs1. reflexivity.
        -- destruct (Hsl d Hd) as [n [Hn ->]].
           exists (n + j)%nat. split; [cbn [length]; lia|].
           rewrite Hcomp. reflexivity.
    + unfold traceOf, finalStore. cbn [fst snd]. split.
      * exists 0%nat. split; [lia | reflexivity].
      * intros d [Hd | []]. discriminate Hd.
Qed.

End Runs.

(* ===================================================================== *)
(** ** What the poller reads of the device code *)

Section Reads.

Variable parseTime : string -> option time.Time.

Lemma samePolling_refl s : samePolling s s.
Proof. unfold samePolling. auto. Qed.

Lemma samePolling_doubled s s' :
  samePolling s s' -> samePolling (doubled s) (doubled s').
Proof.
  unfold samePolling, doubled. cbn. intros [H1 [H2 H3]].
  rewrite H1, H2, H3. auto.
Qed.

Lemma samePolling_tokenRequest s s' :
  samePolling s s' -> tokenRequest s' = tokenRequest s.
Proof.
  unfold samePolling, tokenRequest. intros [H1 [H2 H3]].
  rewrite H1, H2. reflexivity.
Qed.

Lemma samePolling_intervalSleep s s' :
  samePolling s s' -> intervalSleep s' = intervalSleep s.
Proof.
  unfold samePolling, intervalSleep. intros [H1 [H2 H3]].
  rewrite H3. reflexivity.
Qed.

(** Reading and filling the expiry neither touches the store nor leaves
    an event, and what it yields does not depend on the store. *)
Lemma fillExpiry_pure round resp token :
  exists r, forall s, fillExpiry round resp token s = (r, s, []).
Proof.
  unfold fillExpiry, deref, bind, panic, ret.
  destruct (negb (http.StatusCode resp =? http.StatusBadRequest));
    [|eexists; reflexivity].
  destruct (tokenOrError.Token token) as [tok|]; [|eexists; reflexivity].
  cbn -[Z.eqb Go.mul64 time.IsZero withExpiry].
  destruct (time.IsZero (oauth2.Token.Expiry tok)
            && negb (tokenOrError.ExpiresIn token =? 0));
    eexists; reflexivity.
Qed.

Lemma dispatch_samePolling token s s' :
  samePolling s s' ->
  exists r s1 s1' t,
    dispatch token s = (r, s1, t)
    /\ dispatch token s' = (r, s1', t)
    /\ samePolling s1 s1'.
Proof.
  intros H.
  pose proof (samePolling_intervalSleep _ _ H) as Hi.
  pose proof (samePolling_intervalSleep _ _ (samePolling_doubled _ _ H)) as Hd.
  unfold intervalSleep in Hi, Hd. inversion Hi as [Hi']. inversion Hd as [Hd'].
  unfold dispatch. cbv zeta.
  repeat match goal with
         | |- context [String.eqb ?a ?b] => destruct (String.eqb a b)
         end;
    run; cbn -[Go.mul64]; fold (doubled s); fold (doubled s');
    try rewrite Hi'; try rewrite Hd';
    do 4 eexists; (split; [reflexivity|]); (split; [reflexivity|]);
    auto using samePolling_doubled.
Qed.

(** A pass from two stores with the same configuration, device code and
    interval ends the same way, with the same events. *)
Lemma poll_samePolling round s s' :
  samePolling s s' ->
  exists r s1 s1' t,
    poll parseTime round s = (r, s1, t)
    /\ poll parseTime round s' = (r, s1', t)
    /\ samePolling s1 s1'.
Proof.
  intros H.
  pose proof (samePolling_tokenRequest _ _ H) as Hq.
  pose proof (samePolling_intervalSleep _ _ H) as Hi.
  destruct (reply round) as [cause|resp] eqn:Hr.
  { rewrite !(poll_transport_failure parseTime round cause _ Hr), Hq.
    do 4 eexists. auto. }
  destruct (Z.eq_dec (http.StatusCode resp) http.StatusPreconditionRequired)
    as [H428|H428].
  { rewrite !(poll_precondition_required parseTime round resp _ Hr H428),
      Hq, Hi.
    do 4 eexists. auto. }
  destruct (Z.eq_dec (http.StatusCode resp) http.StatusOK) as [H200|H200];
    [|destruct (Z.eq_dec (http.StatusCode resp) http.StatusBadRequest)
        as [H400|H400]].
  3: { rewrite !(poll_unexpected_status parseTime round resp _ Hr H428 H200
                   H400), Hq.
       do 4 eexists. auto. }
  all: assert (Hst : http.StatusCode resp = http.StatusOK
                     \/ http.StatusCode resp = http.StatusBadRequest) by auto.
  all: destruct (tokenOrError.Decode parseTime (http.Body resp))
         as [err|token] eqn:Hd;
       [ rewrite !(poll_decode_error parseTime round resp err _ Hr Hst Hd), Hq;
         do 4 eexists; auto
       | rewrite !(poll_decoded parseTime round resp token _ Hr Hst Hd), Hq ].
  all: unfold bind; destruct (fillExpiry_pure round resp token) as [r0 Hf];
       rewrite !Hf.
  all: destruct r0 as [token1|reason];
       [|do 4 eexists; split; [reflexivity|]; split; [reflexivity|]; exact H].
  all: destruct (dispatch_samePolling token1 s s' H)
         as [r [s1 [s1' [t [-> [-> Hs]]]]]].
  all: do 4 eexists; split; [reflexivity|]; split; [reflexivity|]; exact Hs.
Qed.

(** The run reads nothing of the device code but the code to send and the
    interval: from two stores that agree on these and on the configuration
    it ends the same way, with the same events. *)
Lemma run_samePolling rounds :
  forall s s',
    samePolling s s' ->
    resultOf (WaitForDeviceAuthorization parseTime rounds s')
    = resultOf (WaitForDeviceAuthorization parseTime rounds s)
    /\ traceOf (WaitForDeviceAuthorization parseTime rounds s')
       = traceOf (WaitForDeviceAuthorization parseTime rounds s)
    /\ samePolling (finalStore (WaitForDeviceAuthorization parseTime rounds s))
         (finalStore (WaitForDeviceAuthorization parseTime rounds s')).
Proof.
  induction rounds as [|round rest IH]; intros s s' H.
  - cbn. auto.
  - cbn [WaitForDeviceAuthorization]. unfold bind.
    destruct (poll_samePolling round s s' H)
      as [r [s1 [s1' [t [-> [-> Hs]]]]]].
    destruct r as [[|tok err]|reason].
    + specialize (IH s1 s1' Hs). destruct IH as [H1 [H2 H3]].
      destruct (WaitForDeviceAuthorization parseTime rest s1)
        as [[r2 s2] t2].
      destruct (WaitForDeviceAuthorization parseTime rest s1')
        as [[r2' s2'] t2'].
      unfold resultOf, traceOf, finalStore in *. cbn [fst snd] in *.
      subst. auto.
    + cbn. auto.
    + cbn. auto.
Qed.

End Reads.

(* ===================================================================== *)
(** ** Decoding a poll answer *)

Section DecodeToken.

Variable parseTime : string -> option time.Time.

(** What storing a member does to the embedded pointer: a field of the
    token leaves it allocated, whatever the value, and any other field
    leaves it as it was.  The errors are those of the decoder. *)
Lemma store_Token f j v :
  match tokenOrError.store parseTime f j v with
  | decode.Stored v1 =>
      tokenOrError.Token v1
      = match f with
        | tokenOrError.error_ | tokenOrError.error_description
        | tokenOrError.expires_in => tokenOrError.Token v
        | _ => Some (match tokenOrError.Token v1 with
                     | Some tok => tok
                     | None => oauth2.Token.zero
                     end)
        end
  | decode.Mismatch v1 e =>
      e <> ErrAccessDenied
      /\ tokenOrError.Token v1
         = match f with
           | tokenOrError.error_ | tokenOrError.error_description
           | tokenOrError.expires_in => tokenOrError.Token v
           | _ => Some (tokenOrError.alloc v)
           end
  | decode.Abort e => e <> ErrAccessDenied
  end.
Proof.
  destruct f; destruct j as [| |[z|lit]|str| |];
    cbn [tokenOrError.store decode.storeString decode.storeInt64
         decode.storeTime tokenOrError.withToken tokenOrError.Token];
    try (split; [discriminate | reflexivity]);
    try reflexivity; try discriminate.
  - destruct (parseTime str); [reflexivity | discriminate].
  - destruct (Go.isInt64 z); [reflexivity | split; [discriminate|reflexivity]].
Qed.

Lemma object_tokenOrError members :
  forall v saved v1 saved1,
    (forall e, saved = Some e -> e <> ErrAccessDenied) ->
    decode.object tokenOrError.fields (tokenOrError.store parseTime)
      members v saved = inr (v1, saved1) ->
    (forall e, saved1 = Some e -> e <> ErrAccessDenied)
    /\ (tokenOrError.Token v1 = None
        <-> tokenOrError.Token v = None /\ tokenless members = true).
Proof.
  induction members as [|[key j] rest IH]; intros v saved v1 saved1 Hs.
  - cbn. intros E. inversion E; subst. split; [exact Hs|]. tauto.
  - cbn [decode.object]. unfold tokenless, namesToken in *.
    cbn [forallb fst].
    destruct (decode.field tokenOrError.fields key) as [f|] eqn:Ef.
    2: { intros E. destruct (IH _ _ _ _ Hs E) as [H1 H2]. split; [exact H1|].
         cbn [negb andb]. exact H2. }
    pose proof (store_Token f j v) as Hst.
    destruct (tokenOrError.store parseTime f j v) as [v2|v2 e|e];
      [| |discriminate].
    + intros E. destruct (IH _ _ _ _ Hs E) as [H1 H2]. split; [exact H1|].
      rewrite H2, Hst.
      destruct f; cbn [negb andb]; split; intros [Ha Hb];
        try discriminate; auto.
    + destruct Hst as [He Hst].
      assert (Hs' : forall e0, decode.saveError saved e = Some e0 ->
                               e0 <> ErrAccessDenied).
      { intros e0. unfold decode.saveError. destruct saved as [e1|].
        - intros E0. inversion E0; subst. apply Hs. reflexivity.
        - intros E0. inversion E0; subst. exact He. }
      intros E. destruct (IH _ _ _ _ Hs' E) as [H1 H2]. split; [exact H1|].
      rewrite H2, Hst.
      destruct f; cbn [negb andb]; split; intros [Ha Hb];
        try discriminate; auto.
Qed.

(** The decoder never reports the sentinel. *)
Lemma Decode_not_ErrAccessDenied body :
  tokenOrError.Decode parseTime body <> inl ErrAccessDenied.
Proof.
  unfold tokenOrError.Decode, decode.Decode.
  destruct body as [[| | | | |members]|]; try discriminate.
  destruct (decode.object tokenOrError.fields (tokenOrError.store parseTime)
              members tokenOrError.zero None) as [e|[v [e|]]] eqn:E;
    [|intros H; inversion H; subst|discriminate].
  - clear -E. revert E. generalize tokenOrError.zero.
    generalize (@None error).
    induction members as [|[key j] rest IH]; intros saved v;
      cbn [decode.object]; [discriminate|].
    destruct (decode.field tokenOrError.fields key) as [f|]; [|apply IH].
    pose proof (store_Token f j v) as Hst.
    destruct (tokenOrError.store parseTime f j v) as [v2|v2 e2|e2];
      [apply IH | apply IH |].
    intros H; inversion H; subst. intros H1; inversion H1; subst.
    contradiction.
  - assert (Hn : forall e0 : error, None = Some e0 -> e0 <> ErrAccessDenied)
      by discriminate.
    destruct (object_tokenOrError members _ _ _ _ Hn E) as [H1 _].
    exact (H1 _ eq_refl eq_refl).
Qed.

(** The embedded pointer of a decoded object is nil exactly when no member
    names a field of the token. *)
Lemma Decode_Token_nil members token :
  tokenOrError.Decode parseTime (Some (json.Object members)) = inr token ->
  (tokenOrError.Token token = None <-> tokenless members = true).
Proof.
  unfold tokenOrError.Decode, decode.Decode.
  destruct (decode.object tokenOrError.fields (tokenOrError.store parseTime)
              members tokenOrError.zero None) as [e|[v [e|]]] eqn:E;
    try discriminate.
  intros H; inversion H; subst.
  assert (Hn : forall e0 : error, None = Some e0 -> e0 <> ErrAccessDenied)
    by discriminate.
  destruct (object_tokenOrError members _ _ _ _ Hn E) as [_ H2].
  rewrite H2. cbn. tauto.
Qed.

End DecodeToken.

(* ===================================================================== *)
(** ** What a run can return *)

Section Returns.

Variable parseTime : string -> option time.Time.

(** The switch never panics. *)
Lemma dispatch_cases token s :
  (tokenOrError.Error token = ""
   /\ dispatch token s
      = (Done (Return (tokenOrError.Token token) None), s, []))
  \/ (tokenOrError.Error token = "access_denied"
      /\ dispatch token s = (Done (Return None (Some ErrAccessDenied)), s, []))
  \/ (tokenOrError.Error token <> ""
      /\ exists s1 t m,
           dispatch token s = (Done Continue, s1, t)
           \/ dispatch token s
              = (Done (Return None (Some (errorString m))), s, [])).
Proof.
  destruct (String.eqb_spec (tokenOrError.Error token) "") as [H1|H1].
  { left. split; [exact H1 | apply dispatch_no_error; exact H1]. }
  right.
  destruct (String.eqb_spec (tokenOrError.Error token) "access_denied")
    as [H4|H4].
  { left. split; [exact H4 | apply dispatch_access_denied; exact H4]. }
  right. split; [exact H1|].
  destruct (String.eqb_spec (tokenOrError.Error token) "authorization_pending")
    as [H2|H2].
  { exists s, [intervalSleep s], "". left.
    apply dispatch_authorization_pending. exact H2. }
  destruct (String.eqb_spec (tokenOrError.Error token) "slow_down") as [H3|H3].
  { exists (doubled s), [intervalSleep (doubled s)], "". left.
    apply dispatch_slow_down. exact H3. }
  exists s, [], ("authorization failed: " ++ tokenOrError.Error token).
  right. apply dispatch_other; assumption.
Qed.

(** A pass that returns gives back an error and no token, or no error and
    what an answer without an error discriminant decoded to.  The sentinel
    comes from a decoded access_denied only; a nil token without an error
    from status 400 only, when the body named no field of the token. *)
Lemma poll_return_inv round s tok err s1 t :
  poll parseTime round s = (Done (Return tok err), s1, t) ->
  (tok = None
   /\ exists e,
        err = Some e
        /\ (e = ErrAccessDenied ->
            exists resp token,
              reply round = Replied resp
              /\ (http.StatusCode resp = http.StatusOK
                  \/ http.StatusCode resp = http.StatusBadRequest)
              /\ tokenOrError.Decode parseTime (http.Body resp) = inr token
              /\ tokenOrError.Error token = "access_denied"))
  \/ (err = None
      /\ exists resp token,
           reply round = Replied resp
           /\ (http.StatusCode resp = http.StatusOK
               \/ http.StatusCode resp = http.StatusBadRequest)
           /\ tokenOrError.Decode parseTime (http.Body resp) = inr token
           /\ tokenOrError.Error token = ""
           /\ (tok = None ->
               http.StatusCode resp = http.StatusBadRequest
               /\ tokenOrError.Token token = None)).
Proof.
  destruct (reply round) as [cause|resp] eqn:Hr.
  { rewrite (poll_transport_failure parseTime round cause s Hr).
    intros E; inversion E; subst. left. split; [reflexivity|].
    eexists. split; [reflexivity | discriminate]. }
  destruct (Z.eq_dec (http.StatusCode resp) http.StatusPreconditionRequired)
    as [H428|H428].
  { rewrite (poll_precondition_required parseTime round resp s Hr H428).
    discriminate. }
  destruct (Z.eq_dec (http.StatusCode resp) http.StatusOK) as [H200|H200];
    [|destruct (Z.eq_dec (http.StatusCode resp) http.StatusBadRequest)
        as [H400|H400]].
  3: { rewrite (poll_unexpected_status parseTime round resp s Hr H428 H200 H400).
       intros E; inversion E; subst. left. split; [reflexivity|].
       eexists. split; [reflexivity | discriminate]. }
  all: assert (Hst : http.StatusCode resp = http.StatusOK
                     \/ http.StatusCode resp = http.StatusBadRequest) by auto.
  all: destruct (tokenOrError.Decode parseTime (http.Body resp))
         as [e|token] eqn:Hd.
  1, 3: rewrite (poll_decode_error parseTime round resp e s Hr Hst Hd);
        intros E; inversion E; subst; left; (split; [reflexivity|]);
        eexists; (split; [reflexivity|]); intros ->;
        exfalso; exact (Decode_not_ErrAccessDenied parseTime _ Hd).
  all: rewrite (poll_decoded parseTime round resp token s Hr Hst Hd).
  all: unfold bind.
  all: destruct (fillExpiry round resp token s)
         as [[[token1|reason] s0] t0] eqn:Hf; [|discriminate].
  all: pose proof (fillExpiry_Error round resp token _ _ _ _ Hf)
         as [He [-> ->]].
  all: destruct (dispatch_cases token1 s)
         as [[H1 ->] | [[H1 ->] | [H1 [s2 [t2 [m [-> | ->]]]]]]];
       cbn [after]; intros E; inversion E; subst.
  all: try (left; (split; [reflexivity|]); eexists; (split; [reflexivity|]);
            first [ discriminate
                  | intros _; exists resp, token; repeat split; auto;
                    congruence ]; fail).
  - (* status 200, no discriminant *)
    right. split; [reflexivity|]. exists resp, token.
    split; [reflexivity|]. split; [exact Hst|]. split; [exact Hd|].
    split; [congruence|].
    intros Hn. exfalso.
    assert (Hne : http.StatusCode resp <> http.StatusBadRequest)
      by (rewrite H200; discriminate).
    destruct (tokenOrError.Token token) as [tk|] eqn:Et.
    + rewrite (fillExpiry_token round resp token tk _ Hne Et) in Hf.
      inversion Hf as [Ht]. rewrite <- Ht in Hn.
      destruct (time.IsZero (oauth2.Token.Expiry tk)
                && negb (tokenOrError.ExpiresIn token =? 0));
        [cbn in Hn | rewrite Et in Hn]; discriminate.
    + rewrite (fillExpiry_nil round resp token _ Hne Et) in Hf.
      discriminate.
  - (* status 400, no discriminant *)
    rewrite (fillExpiry_bad_request round resp token _ H400) in Hf.
    inversion Hf as [Ht]. subst token1.
    right. split; [reflexivity|]. exists resp, token.
    split; [reflexivity|]. split; [exact Hst|]. split; [exact Hd|].
    split; [exact H1|]. intros Hn. split; [exact H400 | exact Hn].
Qed.

(** A run that has returned did so on one of its answers. *)
Lemma Wait_returned_inv rounds :
  forall s tok err s1 t,
    WaitForDeviceAuthorization parseTime rounds s
    = (Done (Returned tok err), s1, t) ->
    exists round s0 t0,
      In round rounds
      /\ poll parseTime round s0 = (Done (Return tok err), s0, t0).
Proof.
  induction rounds as [|round rest IH]; intros s tok err s1 t.
  - cbn. discriminate.
  - cbn [WaitForDeviceAuthorization]. unfold bind.
    destruct (poll_cases parseTime round s) as [r [s2 [t2 [Hp Hc]]]].
    rewrite Hp.
    destruct Hc as [[-> [Hs ->]] | [Hr [-> ->]]].
    + destruct (WaitForDeviceAuthorization parseTime rest s2)
        as [[r3 s3] t3] eqn:E.
      intros H; inversion H; subst.
      destruct (IH _ _ _ _ _ E) as [r0 [s0 [t0 [Hin Hp0]]]].
      exists r0, s0, t0. split; [right; exact Hin | exact Hp0].
    + destruct r as [[|tok0 err0]|reason]; [contradiction| |discriminate].
      cbn. intros H; inversion H; subst.
      exists round, s1, [tokenRequest s1]. split; [left; reflexivity|exact Hp].
Qed.

End Returns.

(* ===================================================================== *)
(** ** Bodies of the device-authorization endpoint *)

Section DeviceCodeBodies.

Import DeviceCode DeviceCodeJSON DeviceCodeBody.

(** Storing a member: a null leaves the record alone, a value of the
    field's type is stored, anything else is a saved mismatch. *)
Lemma store_accepts f j c :
  match store f j c with
  | decode.Stored c1 =>
      isNull j || hasType f j = true /\ (isNull j = true -> c1 = c)
  | decode.Mismatch c1 _ => isNull j || hasType f j = false /\ c1 = c
  | decode.Abort _ => False
  end.
Proof.
  destruct f; destruct j as [| |[z|lit]|str| |];
    cbn [store decode.storeString decode.storeInt64 isNull hasType orb];
    try (split; [reflexivity | first [reflexivity | discriminate]]).
  all: destruct (Go.isInt64 z);
    split; first [reflexivity | discriminate].
Qed.

(** Members that name no field, and null members, are skipped. *)
Lemma object_filter members :
  forall c saved,
    decode.object fields store members c saved
    = decode.object fields store (filter sets members) c saved.
Proof.
  induction members as [|[key j] rest IH]; intros c saved; [reflexivity|].
  cbn [decode.object filter]. unfold sets at 1. cbn [fst snd].
  destruct (decode.field fields key) as [f|] eqn:Ef; [|apply IH].
  destruct (isNull j) eqn:En; cbn [negb].
  - pose proof (store_accepts f j c) as Hs.
    destruct (store f j c) as [c1|c1 e|e]; [|rewrite En in Hs|contradiction].
    + destruct Hs as [_ Hc]. rewrite (Hc En). apply IH.
    + destruct Hs as [Hs _]. discriminate.
  - cbn [decode.object]. rewrite Ef.
    destruct (store f j c) as [c1|c1 e|e]; [apply IH | apply IH | reflexivity].
Qed.

(** The decoder never stops early on a device code, and it ends without a
    saved error exactly when it started without one and accepts every
    member. *)
Lemma object_accepted members :
  forall c saved,
    exists c1 saved1,
      decode.object fields store members c saved = inr (c1, saved1)
      /\ (saved1 = None <-> saved = None /\ accepted members = true).
Proof.
  induction members as [|[key j] rest IH]; intros c saved.
  - exists c, saved. split; [reflexivity|]. cbn. tauto.
  - cbn [decode.object]. unfold accepted in *. cbn [forallb fst snd].
    destruct (decode.field fields key) as [f|] eqn:Ef.
    2: { destruct (IH c saved) as [c1 [saved1 [-> H]]].
         exists c1, saved1. split; [reflexivity|]. cbn [andb]. exact H. }
    pose proof (store_accepts f j c) as Hs.
    destruct (store f j c) as [c2|c2 e|e]; [| |contradiction].
    + destruct Hs as [-> _].
      destruct (IH c2 saved) as [c1 [saved1 [-> H]]].
      exists c1, saved1. split; [reflexivity|]. cbn [andb]. exact H.
    + destruct Hs as [-> _].
      destruct (IH c2 (decode.saveError saved e)) as [c1 [saved1 [-> H]]].
      exists c1, saved1. split; [reflexivity|]. cbn [andb]. rewrite H.
      unfold decode.saveError. destruct saved; split; intros [Ha Hb];
        discriminate.
Qed.

Lemma accepted_shaped members :
  accepted members = true -> shaped (filter sets members) = true.
Proof.
  unfold accepted, shaped.
  induction members as [|[key j] rest IH]; [reflexivity|].
  cbn [forallb filter fst snd]. intros H. apply andb_true_iff in H.
  destruct H as [H1 H2]. unfold sets at 1. cbn [fst snd].
  destruct (decode.field fields key) as [f|] eqn:Ef; [|apply IH; exact H2].
  destruct (isNull j); cbn [negb orb] in *; [apply IH; exact H2|].
  cbn [forallb fst snd]. rewrite Ef, H1. apply IH. exact H2.
Qed.

(** An accepted object decodes to the record that its members other than
    nulls and unknown names denote; an object that is not accepted does not
    decode. *)
Lemma Decode_object members :
  (accepted members = true ->
   Decode (Some (json.Object members)) = inr (denoted (filter sets members)))
  /\ (accepted members = false ->
      exists e, Decode (Some (json.Object members)) = inl e).
Proof.
  split; intros Ha.
  - unfold Decode, decode.Decode. rewrite object_filter.
    rewrite (object_overlay _ (accepted_shaped members Ha)).
    rewrite overlay_zero. reflexivity.
  - unfold Decode, decode.Decode.
    destruct (object_accepted members zero None) as [c1 [saved1 [-> H]]].
    destruct saved1 as [e|]; [exists e; reflexivity|].
    destruct (proj1 H eq_refl) as [_ Hb]. rewrite Hb in Ha. discriminate.
Qed.

End DeviceCodeBodies.

(* ===================================================================== *)
(** ** Answers that keep the poller waiting *)

Section Waiting.

Variable parseTime : string -> option time.Time.

Lemma keepsWaiting_poll round s :
  keepsWaiting parseTime round ->
  poll parseTime round s = (Done Continue, s, [tokenRequest s; intervalSleep s]).
Proof.
  intros [[resp [Hr H428]] | [token [Hd He]]].
  - apply (poll_precondition_required parseTime round resp s Hr H428).
  - apply (authorization_pending_keeps_polling parseTime round token s Hd He).
Qed.

Lemma waiting_rounds_then waiting rest s :
  Forall (keepsWaiting parseTime) waiting ->
  WaitForDeviceAuthorization parseTime (waiting ++ rest)%list s
  = match WaitForDeviceAuthorization parseTime rest s with
    | (r, s1, t) => (r, s1, (pollAndSleep s waiting ++ t)%list)
    end.
Proof.
  induction 1 as [|round waiting Hk _ IH].
  - cbn. destruct (WaitForDeviceAuthorization parseTime rest s) as [[r s1] t].
    reflexivity.
  - cbn [app WaitForDeviceAuthorization]. unfold bind.
    rewrite (keepsWaiting_poll round s Hk), IH.
    destruct (WaitForDeviceAuthorization parseTime rest s) as [[r s1] t].
    reflexivity.
Qed.

End Waiting.

(* ===================================================================== *)
(** ** RequestDeviceCode, whatever the answer *)

(** X1.  Whatever the device-authorization endpoint answers,
    RequestDeviceCode sends exactly one request, leaves the configuration
    as it was, does not panic, and returns either a DeviceCode with a nil
    error or a nil DeviceCode with an error, never both and never neither;
    it returns a DeviceCode exactly when the answer is a response with
    status 200 whose body decodes, and then it is the decoded record. *)
Theorem X1_device_code_or_error (c : Config.t) (answer : PostResult) :
  exists res,
    RequestDeviceCode answer c = (Done res, c, [codeRequest c])
    /\ ((exists d, res = (Some d, None)) \/ (exists e, res = (None, Some e)))
    /\ (forall d,
           res = (Some d, None)
           <-> exists resp,
                 answer = Replied resp
                 /\ http.StatusCode resp = 200
                 /\ DeviceCode.Decode (http.Body resp) = inr d).
Proof.
  unfold RequestDeviceCode, bind, PostForm, get, emit, ret, codeRequest.
  destruct answer as [cause|resp]; cbn -[DeviceCode.Decode Z.eqb Go.Join].
  - eexists. split; [reflexivity|]. split; [right; eexists; reflexivity|].
    intros d. split; [discriminate|]. intros [resp [H _]]. discriminate.
  - destruct (Z.eqb_spec (http.StatusCode resp) http.StatusOK) as [H200|H200];
      cbn [negb].
    + destruct (DeviceCode.Decode (http.Body resp)) as [e|d0] eqn:Hd.
      * eexists. split; [reflexivity|]. split; [right; eexists; reflexivity|].
        intros d. split; [discriminate|].
        intros [resp0 [H [_ Hd0]]]. inversion H; subst. congruence.
      * eexists. split; [reflexivity|]. split; [left; eexists; reflexivity|].
        intros d. split.
        -- intros E. inversion E; subst. exists resp. auto.
        -- intros [resp0 [H [_ Hd0]]]. inversion H; subst. congruence.
    + eexists. split; [reflexivity|]. split; [right; eexists; reflexivity|].
      intros d. split; [discriminate|].
      intros [resp0 [H [H1 _]]]. inversion H; subst. contradiction.
Qed.

(** X2.  With status 200 and an object for a body, RequestDeviceCode
    succeeds exactly when every member that names a field of DeviceCode
    (in any letter case) is null or of the field's JSON type.  It then
    returns the record that the members other than nulls and unknown names
    denote, the last member for a field winning; otherwise it returns an
    error and no DeviceCode, even if a later member of the same name is
    well-typed. *)
Theorem X2_accepted_bodies (c : Config.t) (resp : http.Response)
    (members : list (string * json.value)) :
  http.StatusCode resp = 200 ->
  http.Body resp = Some (json.Object members) ->
  (DeviceCodeBody.accepted members = true ->
   RequestDeviceCode (Replied resp) c
   = (Done (Some (DeviceCodeJSON.denoted
                    (filter DeviceCodeBody.sets members)), None),
      c, [codeRequest c]))
  /\ (DeviceCodeBody.accepted members = false ->
      exists e,
        RequestDeviceCode (Replied resp) c
        = (Done (None, Some e), c, [codeRequest c])).
Proof.
  intros Hst Hb.
  destruct (Decode_object members) as [Hok Hbad].
  unfold RequestDeviceCode, bind, PostForm, get, emit, ret, codeRequest.
  cbn -[DeviceCode.Decode Z.eqb Go.Join].
  change http.StatusOK with 200. rewrite Hst, Z.eqb_refl, Hb. cbn [negb].
  split; intros Ha.
  - rewrite (Hok Ha). reflexivity.
  - destruct (Hbad Ha) as [e ->]. exists e. reflexivity.
Qed.

Lemma X2_witness :
  RequestDeviceCode
    (Replied (Sample.response 200 (json.Object Inputs.lenientMembers)))
    Sample.clientConfig
  = (Done (Some {| DeviceCode.DeviceCode := "D1";
                   DeviceCode.UserCode := "";
                   DeviceCode.VerificationURL := "";
                   DeviceCode.VerificationURLComplete := "";
                   DeviceCode.ExpiresIn := 0;
                   DeviceCode.Interval := 7 |}, None),
     Sample.clientConfig, [codeRequest Sample.clientConfig])
  /\ exists e,
       RequestDeviceCode
         (Replied (Sample.response 200 (json.Object Inputs.illTypedMembers)))
         Sample.clientConfig
       = (Done (None, Some e), Sample.clientConfig,
          [codeRequest Sample.clientConfig]).
Proof.
  split.
  - exact (proj1 (X2_accepted_bodies Sample.clientConfig
                    (Sample.response 200 (json.Object Inputs.lenientMembers))
                    Inputs.lenientMembers eq_refl eq_refl) eq_refl).
  - exact (proj2 (X2_accepted_bodies Sample.clientConfig
                    (Sample.response 200
                       (json.Object Inputs.illTypedMembers))
                    Inputs.illTypedMembers eq_refl eq_refl) eq_refl).
Defined.

(** X3.  RequestDeviceCode does not ask for any member to be present: with
    status 200, a body that is null, or an object none of whose members
    sets a field (an empty object, unknown names, nulls), gives the zero
    DeviceCode, with empty codes and URLs and interval 0, and a nil
    error. *)
Theorem X3_nothing_is_required (c : Config.t) (resp : http.Response) :
  http.StatusCode resp = 200 ->
  http.Body resp = Some json.Null
  \/ (exists members,
         http.Body resp = Some (json.Object members)
         /\ filter DeviceCodeBody.sets members = []) ->
  RequestDeviceCode (Replied resp) c
  = (Done (Some DeviceCode.zero, None), c, [codeRequest c]).
Proof.
  intros Hst Hb.
  unfold RequestDeviceCode, bind, PostForm, get, emit, ret, codeRequest.
  cbn -[DeviceCode.Decode Z.eqb Go.Join].
  change http.StatusOK with 200. rewrite Hst, Z.eqb_refl. cbn [negb].
  destruct Hb as [-> | [members [-> Hf]]]; [reflexivity|].
  unfold DeviceCode.Decode, decode.Decode.
  rewrite object_filter, Hf. reflexivity.
Qed.

Lemma X3_witness :
  RequestDeviceCode
    (Replied (Sample.response 200 (json.Object Inputs.foreignMembers)))
    Sample.clientConfig
  = (Done (Some DeviceCode.zero, None), Sample.clientConfig,
     [codeRequest Sample.clientConfig]).
Proof.
  apply (X3_nothing_is_required Sample.clientConfig
           (Sample.response 200 (json.Object Inputs.foreignMembers))
           eq_refl).
  right. exists Inputs.foreignMembers. split; reflexivity.
Defined.

(* ===================================================================== *)
(** ** WaitForDeviceAuthorization: waiting and failing *)




(** X5.  A transport failure ends the run at once: after any number of
    answers that kept it waiting, the poller returns the error of the
    failed request and no token, without sleeping again and without asking
    for the answers that follow. *)
Theorem X5_transport_failure_is_returned
    (parseTime : string -> option time.Time) (waiting : list Round)
    (round : Round) (rest : list Round) (cause : string) (s : Store) :
  Forall (keepsWaiting parseTime) waiting ->
  reply round = Failed cause ->
  WaitForDeviceAuthorization parseTime (waiting ++ round :: rest)%list s
  = (Done (Returned None (Some (url_Error cause))), s,
     (pollAndSleep s waiting ++ [tokenRequest s])%list).
Proof.
  intros Hw Hr. rewrite (waiting_rounds_then parseTime waiting _ s Hw).
  rewrite (Wait_returns parseTime round rest s s None (Some (url_Error cause))
             [tokenRequest s]); [reflexivity|].
  apply poll_transport_failure. exact Hr.
Qed.

Lemma X5_witness :
  WaitForDeviceAuthorization Sample.noTimestamp
    [ Inputs.round428; Inputs.roundFailed;
      Sample.round 200 Sample.tokenBody Sample.now ]
    Sample.store
  = (Done (Returned None (Some (url_Error "connection refused"))),
     Sample.store,
     [ Sample.pollRequest; SleepEv 5000000000; Sample.pollRequest ]).
Proof.
  apply (X5_transport_failure_is_returned Sample.noTimestamp
           [Inputs.round428] Inputs.roundFailed
           [Sample.round 200 Sample.tokenBody Sample.now]
           "connection refused" Sample.store).
  - apply Forall_cons; [|apply Forall_nil].
    left. eexists. split; reflexivity.
  - reflexivity.
Defined.

(** X6.  A body that does not decode ends the run at once: with status 200
    or 400, after any number of answers that kept it waiting, the poller
    returns the decoder's error and no token, without sleeping again. *)
Theorem X6_undecodable_body_is_returned
    (parseTime : string -> option time.Time) (waiting : list Round)
    (round : Round) (rest : list Round) (resp : http.Response) (err : error)
    (s : Store) :
  Forall (keepsWaiting parseTime) waiting ->
  reply round = Replied resp ->
  http.StatusCode resp = 200 \/ http.StatusCode resp = 400 ->
  tokenOrError.Decode parseTime (http.Body resp) = inl err ->
  WaitForDeviceAuthorization parseTime (waiting ++ round :: rest)%list s
  = (Done (Returned None (Some err)), s,
     (pollAndSleep s waiting ++ [tokenRequest s])%list).
Proof.
  intros Hw Hr Hst Hd. rewrite (waiting_rounds_then parseTime waiting _ s Hw).
  rewrite (Wait_returns parseTime round rest s s None (Some err)
             [tokenRequest s]); [reflexivity|].
  apply (poll_decode_error parseTime round resp err s Hr Hst Hd).
Qed.

Lemma X6_witness :
  WaitForDeviceAuthorization Sample.noTimestamp
    [ Inputs.round428; Inputs.roundGarbled ] Sample.store
  = (Done (Returned None (Some SyntaxError)), Sample.store,
     [ Sample.pollRequest; SleepEv 5000000000; Sample.pollRequest ]).
Proof.
  apply (X6_undecodable_body_is_returned Sample.noTimestamp
           [Inputs.round428] Inputs.roundGarbled []
           {| http.StatusCode := 200; http.Body := None |} SyntaxError
           Sample.store).
  - apply Forall_cons; [|apply Forall_nil].
    left. eexists. split; reflexivity.
  - reflexivity.
  - left. reflexivity.
  - reflexivity.
Defined.

(* ===================================================================== *)
(** ** WaitForDeviceAuthorization: every run *)

(** X7.  In every run requests and sleeps take turns, starting with a
    request: the poller never sends two requests without a sleep between
    them and never sleeps twice in a row.  While it is still in the loop
    it has sent one request and slept once per answer; once it has returned
    or panicked, its last act was a request, with no sleep after it. *)
Theorem X7_requests_and_sleeps_take_turns
    (parseTime : string -> option time.Time) (rounds : list Round)
    (s : Store) :
  let run := WaitForDeviceAuthorization parseTime rounds s in
  paced (traceOf run) = true
  /\ (polls (traceOf run) <= length rounds)%nat
  /\ (resultOf run = Done StillPolling ->
      polls (traceOf run) = length rounds
      /\ sleeps (traceOf run) = length rounds)
  /\ (resultOf run <> Done StillPolling ->
      polls (traceOf run) = S (sleeps (traceOf run))).
Proof. exact (run_is_paced parseTime rounds s). Qed.

(** X8.  Every request of a run goes to the token URL of the configuration
    with the same form: the client secret (sent even when empty), the
    client id, the device code as it was passed in, and the device-code
    grant type.  A doubled interval does not change what is sent. *)
Theorem X8_every_poll_sends_the_same_form
    (parseTime : string -> option time.Time) (rounds : list Round)
    (s : Store) (target : string) (data : url.Values) :
  In (PostFormEv target data)
     (traceOf (WaitForDeviceAuthorization parseTime rounds s)) ->
  target
  = oauth2.Endpoint.TokenURL
      (oauth2.Config.Endpoint (Config.Config (config s)))
  /\ data
     = [ ("client_secret",
            [oauth2.Config.ClientSecret (Config.Config (config s))]);
         ("client_id", [oauth2.Config.ClientID (Config.Config (config s))]);
         ("device_code", [DeviceCode.DeviceCode (code s)]);
         ("grant_type", ["urn:ietf:params:oauth:grant-type:device_code"]) ].
Proof.
  intros Hin. destruct (run_requests parseTime rounds s _ Hin) as [E | [d E]].
  - unfold tokenRequest in E. inversion E. split; reflexivity.
  - discriminate E.
Qed.

Lemma X8_witness :
  "https://idp/token"
  = oauth2.Endpoint.TokenURL
      (oauth2.Config.Endpoint (Config.Config (config Sample.store)))
  /\ [ ("client_secret", [""]); ("client_id", ["cli"]);
       ("device_code", ["D1"]);
       ("grant_type", ["urn:ietf:params:oauth:grant-type:device_code"]) ]
     = [ ("client_secret",
            [oauth2.Config.ClientSecret
               (Config.Config (config Sample.store))]);
         ("client_id",
            [oauth2.Config.ClientID (Config.Config (config Sample.store))]);
         ("device_code", [DeviceCode.DeviceCode (code Sample.store)]);
         ("grant_type", ["urn:ietf:params:oauth:grant-type:device_code"]) ].
Proof.
  apply (X8_every_poll_sends_the_same_form Sample.noTimestamp
           [ Sample.round 400 (Sample.errorBody "slow_down") Sample.now;
             Sample.round 200 Sample.tokenBody Sample.now ]
           Sample.store).
  cbn. right. right. left. reflexivity.
Defined.

(** X9.  Of the device code the poller reads only the code to send and the
    interval.  Two device codes that agree on these give, under the same
    configuration and answers, the same outcome, the same requests and
    sleeps and the same final interval, whatever their user code,
    verification URLs and lifetime. *)
Theorem X9_other_fields_are_not_read
    (parseTime : string -> option time.Time) (rounds : list Round)
    (cfg : Config.t) (c c' : DeviceCode.t) :
  DeviceCode.DeviceCode c' = DeviceCode.DeviceCode c ->
  DeviceCode.Interval c' = DeviceCode.Interval c ->
  let run := WaitForDeviceAuthorization parseTime rounds
               {| config := cfg; code := c |} in
  let run' := WaitForDeviceAuthorization parseTime rounds
                {| config := cfg; code := c' |} in
  resultOf run' = resultOf run
  /\ traceOf run' = traceOf run
  /\ DeviceCode.Interval (code (finalStore run'))
     = DeviceCode.Interval (code (finalStore run)).
Proof.
  intros Hc Hi run run'. subst run run'.
  assert (H : samePolling {| config := cfg; code := c |}
                {| config := cfg; code := c' |}).
  { unfold samePolling. cbn. auto. }
  destruct (run_samePolling parseTime rounds _ _ H) as [H1 [H2 [_ [_ H3]]]].
  auto.
Qed.

Lemma X9_witness :
  resultOf (WaitForDeviceAuthorization Sample.noTimestamp
              [ Sample.round 400 (Sample.errorBody "slow_down") Sample.now;
                Sample.round 200 Sample.tokenBody Sample.now ]
              {| config := Sample.clientConfig;
                 code := Inputs.otherDeviceCode |})
  = resultOf (WaitForDeviceAuthorization Sample.noTimestamp
                [ Sample.round 400 (Sample.errorBody "slow_down") Sample.now;
                  Sample.round 200 Sample.tokenBody Sample.now ]
                Sample.store).
Proof.
  exact (proj1 (X9_other_fields_are_not_read Sample.noTimestamp
                  [ Sample.round 400 (Sample.errorBody "slow_down") Sample.now;
                    Sample.round 200 Sample.tokenBody Sample.now ]
                  Sample.clientConfig Sample.deviceCode Inputs.otherDeviceCode
                  eq_refl eq_refl)).
Defined.

(** X10.  The interval changes by doubling only: the interval a run leaves
    in the device code is the initial one doubled (as a 64-bit integer)
    some number of times, at most once per sleep, and every sleep is of
    such a doubling of the initial interval, times one second. *)
Theorem X10_interval_only_doubles
    (parseTime : string -> option time.Time) (rounds : list Round)
    (s : Store) :
  let run := WaitForDeviceAuthorization parseTime rounds s in
  (exists k, (k <= sleeps (traceOf run))%nat
             /\ DeviceCode.Interval (code (finalStore run))
                = doublings k (DeviceCode.Interval (code s)))
  /\ (forall d, In (SleepEv d) (traceOf run) ->
      exists k, (k <= length rounds)%nat
                /\ d = Go.mul64 (doublings k (DeviceCode.Interval (code s)))
                         time.Second).
Proof. exact (run_intervals parseTime rounds s). Qed.

Lemma doublings_zero k : doublings k 0 = 0.
Proof.
  unfold doublings. induction k as [|k IH]; [reflexivity|].
  rewrite Nat.iter_succ, IH. reflexivity.
Qed.

(** X11.  An interval of 0, which is what a device-authorization body
    without an interval member decodes to, is never replaced by a default:
    every sleep of the run is then of length zero, slow_down answers
    included, and the interval is still 0 at the end. *)
Theorem X11_zero_interval_never_waits
    (parseTime : string -> option time.Time) (rounds : list Round)
    (s : Store) :
  DeviceCode.Interval (code s) = 0 ->
  let run := WaitForDeviceAuthorization parseTime rounds s in
  (forall d, In (SleepEv d) (traceOf run) -> d = 0)
  /\ DeviceCode.Interval (code (finalStore run)) = 0.
Proof.
  intros Hz run. subst run.
  destruct (run_intervals parseTime rounds s) as [[k [_ Hk]] Hs]. split.
  - intros d Hd. destruct (Hs d Hd) as [n [_ ->]].
    rewrite Hz, doublings_zero. reflexivity.
  - rewrite Hk, Hz. apply doublings_zero.
Qed.

Lemma X11_witness :
  WaitForDeviceAuthorization Sample.noTimestamp
    [ Sample.round 400 (Sample.errorBody "slow_down") Sample.now;
      Inputs.round428 ]
    Inputs.hastyStore
  = (Done StillPolling, Inputs.hastyStore,
     [ Sample.pollRequest; SleepEv 0; Sample.pollRequest; SleepEv 0 ])
  /\ DeviceCode.Interval
       (code (finalStore
                (WaitForDeviceAuthorization Sample.noTimestamp
                   [ Sample.round 400 (Sample.errorBody "slow_down")
                       Sample.now;
                     Inputs.round428 ]
                   Inputs.hastyStore))) = 0.
Proof.
  split; [reflexivity|].
  exact (proj2 (X11_zero_interval_never_waits Sample.noTimestamp
                  [ Sample.round 400 (Sample.errorBody "slow_down") Sample.now;
                    Inputs.round428 ]
                  Inputs.hastyStore eq_refl)).
Defined.

(* ===================================================================== *)
(** ** WaitForDeviceAuthorization: what comes back *)

(** X12.  A run never returns a token together with an error: when there is
    an error the token is nil. *)
Theorem X12_no_token_with_an_error
    (parseTime : string -> option time.Time) (rounds : list Round)
    (s s1 : Store) (tok : option oauth2.Token.t) (e : error)
    (t : list Event) :
  WaitForDeviceAuthorization parseTime rounds s
  = (Done (Returned tok (Some e)), s1, t) ->
  tok = None.
Proof.
  intros H.
  destruct (Wait_returned_inv parseTime rounds _ _ _ _ _ H)
    as [round [s0 [t0 [_ Hp]]]].
  destruct (poll_return_inv parseTime round _ _ _ _ _ Hp)
    as [[Ht _] | [He _]]; [exact Ht | discriminate He].
Qed.

Lemma X12_witness : @None oauth2.Token.t = None.
Proof.
  exact (X12_no_token_with_an_error Sample.noTimestamp
           [ Sample.round 400 (Sample.errorBody "access_denied") Sample.now ]
           Sample.store Sample.store None ErrAccessDenied
           [Sample.pollRequest] eq_refl).
Defined.

(** X13.  ErrAccessDenied means a decoded access_denied and nothing else:
    a run that returns the sentinel got, with status 200 or 400, an answer
    whose body decoded with the error discriminant access_denied.  No
    transport failure, HTTP status or decoding error is ever reported as
    the sentinel. *)
Theorem X13_sentinel_means_access_denied
    (parseTime : string -> option time.Time) (rounds : list Round)
    (s s1 : Store) (tok : option oauth2.Token.t) (t : list Event) :
  WaitForDeviceAuthorization parseTime rounds s
  = (Done (Returned tok (Some ErrAccessDenied)), s1, t) ->
  exists round resp token,
    In round rounds
    /\ reply round = Replied resp
    /\ (http.StatusCode resp = 200 \/ http.StatusCode resp = 400)
    /\ tokenOrError.Decode parseTime (http.Body resp) = inr token
    /\ tokenOrError.Error token = "access_denied".
Proof.
  intros H.
  destruct (Wait_returned_inv parseTime rounds _ _ _ _ _ H)
    as [round [s0 [t0 [Hin Hp]]]].
  destruct (poll_return_inv parseTime round _ _ _ _ _ Hp)
    as [[_ [e [He Hs]]] | [He _]]; [|discriminate He].
  inversion He; subst e.
  destruct (Hs eq_refl) as [resp [token [Hr [Hst [Hd Herr]]]]].
  exists round, resp, token. auto.
Qed.

Lemma X13_witness :
  exists round resp token,
    In round
       [ Inputs.round428;
         Sample.round 400 (Sample.errorBody "access_denied") Sample.now ]
    /\ reply round = Replied resp
    /\ (http.StatusCode resp = 200 \/ http.StatusCode resp = 400)
    /\ tokenOrError.Decode Sample.noTimestamp (http.Body resp) = inr token
    /\ tokenOrError.Error token = "access_denied".
Proof.
  exact (X13_sentinel_means_access_denied Sample.noTimestamp
           [ Inputs.round428;
             Sample.round 400 (Sample.errorBody "access_denied") Sample.now ]
           Sample.store Sample.store None
           [ Sample.pollRequest; SleepEv 5000000000; Sample.pollRequest ]
           eq_refl).
Defined.

(** X14.  A run that returns without an error got, with status 200 or 400,
    an answer whose body decoded with an empty error discriminant; and if
    the token it returns is nil as well, that answer had status 400 and a
    body that named no field of the token. *)
Theorem X14_success_means_no_discriminant
    (parseTime : string -> option time.Time) (rounds : list Round)
    (s s1 : Store) (tok : option oauth2.Token.t) (t : list Event) :
  WaitForDeviceAuthorization parseTime rounds s
  = (Done (Returned tok None), s1, t) ->
  exists round resp token,
    In round rounds
    /\ reply round = Replied resp
    /\ (http.StatusCode resp = 200 \/ http.StatusCode resp = 400)
    /\ tokenOrError.Decode parseTime (http.Body resp) = inr token
    /\ tokenOrError.Error token = ""
    /\ (tok = None ->
        http.StatusCode resp = 400 /\ tokenOrError.Token token = None).
Proof.
  intros H.
  destruct (Wait_returned_inv parseTime rounds _ _ _ _ _ H)
    as [round [s0 [t0 [Hin Hp]]]].
  destruct (poll_return_inv parseTime round _ _ _ _ _ Hp)
    as [[_ [e [He _]]] | [_ [resp [token Hc]]]]; [discriminate He|].
  exists round, resp, token. split; [exact Hin | exact Hc].
Qed.

Lemma X14_witness :
  exists round resp token,
    In round [ Sample.round 200 Sample.tokenBody Sample.now ]
    /\ reply round = Replied resp
    /\ (http.StatusCode resp = 200 \/ http.StatusCode resp = 400)
    /\ tokenOrError.Decode Sample.noTimestamp (http.Body resp) = inr token
    /\ tokenOrError.Error token = ""
    /\ (Some {| oauth2.Token.AccessToken := "tok123";
                oauth2.Token.TokenType := "Bearer";
                oauth2.Token.RefreshToken := "";
                oauth2.Token.Expiry := Sample.now + seconds 3600 |} = None ->
        http.StatusCode resp = 400 /\ tokenOrError.Token token = None).
Proof.
  exact (X14_success_means_no_discriminant Sample.noTimestamp
           [ Sample.round 200 Sample.tokenBody Sample.now ]
           Sample.store Sample.store _ [Sample.pollRequest] eq_refl).
Defined.

(** X15.  With status 400, a body that decodes with no error discriminant
    and names no field of the token makes the poller return a nil token
    together with a nil error. *)
Theorem X15_nil_token_and_nil_error
    (parseTime : string -> option time.Time) (round : Round)
    (rest : list Round) (resp : http.Response) (token : tokenOrError.t)
    (s : Store) :
  reply round = Replied resp ->
  http.StatusCode resp = 400 ->
  tokenOrError.Decode parseTime (http.Body resp) = inr token ->
  tokenOrError.Error token = "" ->
  tokenOrError.Token token = None ->
  WaitForDeviceAuthorization parseTime (round :: rest) s
  = (Done (Returned None None), s, [tokenRequest s]).
Proof.
  intros Hr H400 Hd He Ht. apply Wait_returns.
  rewrite (poll_decoded parseTime round resp token s Hr (or_intror H400) Hd).
  unfold bind. rewrite (fillExpiry_bad_request round resp token s H400).
  rewrite (dispatch_no_error token s He), Ht. reflexivity.
Qed.

Lemma X15_witness :
  WaitForDeviceAuthorization Sample.noTimestamp
    [ Inputs2.emptyBadRequest ] Sample.store
  = (Done (Returned None None), Sample.store, [Sample.pollRequest]).
Proof.
  apply (X15_nil_token_and_nil_error Sample.noTimestamp
           Inputs2.emptyBadRequest []
           (Sample.response 400
              (json.Object [ ("scope", json.String "openid") ]))
           tokenOrError.zero Sample.store);
    reflexivity.
Defined.

(** X16.  With status 200 and an object for a body that decodes, the pass
    stops at the reading of the expiry with a nil pointer dereference
    exactly when no member of the body names (in any letter case) one of
    access_token, token_type, refresh_token and expiry; an expires_in or
    error member does not allocate the token. *)
Theorem X16_status_200_panics_iff_tokenless
    (parseTime : string -> option time.Time) (round : Round)
    (rest : list Round) (resp : http.Response)
    (members : list (string * json.value)) (token : tokenOrError.t)
    (s : Store) :
  reply round = Replied resp ->
  http.StatusCode resp = 200 ->
  http.Body resp = Some (json.Object members) ->
  tokenOrError.Decode parseTime (http.Body resp) = inr token ->
  (WaitForDeviceAuthorization parseTime (round :: rest) s
   = (Panic nilDereference, s, [tokenRequest s])
   <-> tokenless members = true).
Proof.
  intros Hr H200 Hb Hd.
  assert (Hnil : tokenOrError.Token token = None <-> tokenless members = true).
  { rewrite Hb in Hd. apply (Decode_Token_nil parseTime members token Hd). }
  rewrite <- Hnil. split.
  - intros Hrun.
    destruct (tokenOrError.Token token) as [tk|] eqn:Et; [|reflexivity].
    exfalso.
    assert (Hdec : decodes parseTime round token).
    { exists resp. split; [exact Hr|]. split; [exact Hd|]. right.
      split; [exact H200 | congruence]. }
    destruct (poll_reaches_switch parseTime round token s Hdec)
      as [token1 [_ Hp]].
    cbn [WaitForDeviceAuthorization] in Hrun. unfold bind in Hrun.
    rewrite Hp in Hrun.
    destruct (dispatch_cases token1 s)
      as [[_ E] | [[_ E] | [_ [s2 [t2 [m [E | E]]]]]]];
      rewrite E in Hrun; cbn [after ret] in Hrun;
      try discriminate Hrun.
    destruct (WaitForDeviceAuthorization parseTime rest s2) as [[r3 s3] t3].
    inversion Hrun as [[H1 H2 H3]].
    pose proof (dispatch_cases token1 s) as Hc.
    rewrite E in Hc.
    destruct Hc as [[_ Hc] | [[_ Hc] | [Hne [s4 [t4 [m4 [Hc | Hc]]]]]]];
      try discriminate Hc.
    inversion Hc; subst.
    destruct (String.eqb_spec (tokenOrError.Error token1)
                "authorization_pending") as [Hp1|Hp1].
    + rewrite (dispatch_authorization_pending token1 s Hp1) in E.
      inversion E; subst. discriminate H3.
    + destruct (String.eqb_spec (tokenOrError.Error token1) "slow_down")
        as [Hp2|Hp2].
      * rewrite (dispatch_slow_down token1 s Hp2) in E.
        inversion E; subst. discriminate H3.
      * destruct (String.eqb_spec (tokenOrError.Error token1) "access_denied")
          as [Hp3|Hp3].
        -- rewrite (dispatch_access_denied token1 s Hp3) in E. discriminate E.
        -- rewrite (dispatch_other token1 s Hne Hp1 Hp2 Hp3) in E.
           discriminate E.
  - intros Ht.
    apply (nil_token_panics parseTime round resp token rest s Hr H200 Hd Ht).
Qed.

Lemma X16_witness :
  (WaitForDeviceAuthorization Sample.noTimestamp
     [ Sample.round 200 (Sample.errorBody "slow_down") Sample.now ]
     Sample.store
   = (Panic nilDereference, Sample.store, [tokenRequest Sample.store])
   <-> tokenless [ ("error", json.String "slow_down") ] = true)
  /\ (WaitForDeviceAuthorization Sample.noTimestamp
        [ Sample.round 200 Inputs2.pendingWithType Sample.now ] Sample.store
      = (Panic nilDereference, Sample.store, [tokenRequest Sample.store])
      <-> tokenless [ ("error", json.String "authorization_pending");
                      ("token_type", json.String "Bearer") ] = true).
Proof.
  split.
  - apply (X16_status_200_panics_iff_tokenless Sample.noTimestamp
             (Sample.round 200 (Sample.errorBody "slow_down") Sample.now) []
             (Sample.response 200 (Sample.errorBody "slow_down"))
             [ ("error", json.String "slow_down") ]
             {| tokenOrError.Token := None;
                tokenOrError.Error := "slow_down";
                tokenOrError.ErrorDescription := "";
                tokenOrError.ExpiresIn := 0 |}
             Sample.store); reflexivity.
  - apply (X16_status_200_panics_iff_tokenless Sample.noTimestamp
             (Sample.round 200 Inputs2.pendingWithType Sample.now) []
             (Sample.response 200 Inputs2.pendingWithType)
             [ ("error", json.String "authorization_pending");
               ("token_type", json.String "Bearer") ]
             {| tokenOrError.Token :=
                  Some {| oauth2.Token.AccessToken := "";
                          oauth2.Token.TokenType := "Bearer";
                          oauth2.Token.RefreshToken := "";
                          oauth2.Token.Expiry := 0 |};
                tokenOrError.Error := "authorization_pending";
                tokenOrError.ErrorDescription := "";
                tokenOrError.ExpiresIn := 0 |}
             Sample.store); reflexivity.
Defined.

(* ===================================================================== *)
(** ** WaitForDeviceAuthorization: the switch, on answers it reaches *)

Section Switch.

Variable parseTime : string -> option time.Time.

(** Without an error discriminant the pass returns the token the body
    decoded to, its expiry possibly filled in. *)
Lemma poll_issues_token round token tk s :
  decodes parseTime round token ->
  tokenOrError.Error token = "" ->
  tokenOrError.Token token = Some tk ->
  exists tok1,
    poll parseTime round s = (Done (Return (Some tok1) None), s, [tokenRequest s])
    /\ oauth2.Token.AccessToken tok1 = oauth2.Token.AccessToken tk
    /\ oauth2.Token.TokenType tok1 = oauth2.Token.TokenType tk
    /\ oauth2.Token.RefreshToken tok1 = oauth2.Token.RefreshToken tk.
Proof.
  intros [resp [Hr [Hd Hs]]] He Ht.
  assert (Hst : http.StatusCode resp = http.StatusOK
                \/ http.StatusCode resp = http.StatusBadRequest)
    by (destruct Hs as [H | [H _]]; auto).
  rewrite (poll_decoded parseTime round resp token s Hr Hst Hd). unfold bind.
  destruct Hs as [H400 | [H200 _]].
  - rewrite (fillExpiry_bad_request round resp token s H400).
    rewrite (dispatch_no_error token s He), Ht. exists tk. auto.
  - assert (Hne : http.StatusCode resp <> http.StatusBadRequest)
      by (rewrite H200; discriminate).
    rewrite (fillExpiry_token round resp token tk s Hne Ht).
    destruct (time.IsZero (oauth2.Token.Expiry tk)
              && negb (tokenOrError.ExpiresIn token =? 0)).
    + rewrite dispatch_no_error by exact He.
      eexists. split; [reflexivity|]. cbn. auto.
    + rewrite (dispatch_no_error token s He), Ht. exists tk. auto.
Qed.

Lemma pollAndSleep_seconds s waiting :
  0 <= DeviceCode.Interval (code s) <= maxSeconds ->
  pollAndSleep s waiting
  = flat_map (fun _ => [tokenRequest s;
                        SleepEv (seconds (DeviceCode.Interval (code s)))])
      waiting.
Proof.
  intros H. unfold pollAndSleep, intervalSleep.
  rewrite mul64_Second by (unfold maxSeconds in *; lia). reflexivity.
Qed.

End Switch.

(** X17.  After N answers that keep it waiting (status 428 or a decoded
    authorization_pending), an answer that decodes with no error
    discriminant and names a field of the token ends the run with that
    token and no error: N + 1 requests in all, a sleep of the interval (of
    0 to [maxSeconds] seconds) after each of the first N, none after the
    last, and the device code as it was. *)
Theorem X17_waiting_then_token
    (parseTime : string -> option time.Time) (waiting : list Round)
    (final : Round) (rest : list Round) (token : tokenOrError.t)
    (tk : oauth2.Token.t) (s : Store) :
  Forall (keepsWaiting parseTime) waiting ->
  decodes parseTime final token ->
  tokenOrError.Error token = "" ->
  tokenOrError.Token token = Some tk ->
  0 <= DeviceCode.Interval (code s) <= maxSeconds ->
  exists tok1,
    WaitForDeviceAuthorization parseTime (waiting ++ final :: rest)%list s
    = (Done (Returned (Some tok1) None), s,
       (flat_map (fun _ => [tokenRequest s;
                            SleepEv (seconds (DeviceCode.Interval (code s)))])
          waiting ++ [tokenRequest s])%list)
    /\ oauth2.Token.AccessToken tok1 = oauth2.Token.AccessToken tk
    /\ oauth2.Token.TokenType tok1 = oauth2.Token.TokenType tk
    /\ oauth2.Token.RefreshToken tok1 = oauth2.Token.RefreshToken tk
    /\ polls (traceOf (WaitForDeviceAuthorization parseTime
                         (waiting ++ final :: rest)%list s))
       = S (length waiting).
Proof.
  intros Hw Hd He Ht Hi.
  destruct (poll_issues_token parseTime final token tk s Hd He Ht)
    as [tok1 [Hp [H1 [H2 H3]]]].
  exists tok1.
  rewrite (waiting_rounds_then parseTime waiting _ s Hw).
  rewrite (Wait_returns parseTime final rest s s _ _ _ Hp).
  rewrite <- (pollAndSleep_seconds s waiting Hi).
  repeat split; auto.
  unfold traceOf. cbn [snd]. rewrite polls_app, polls_pollAndSleep.
  cbn. lia.
Qed.

Lemma X17_witness :
  exists tok1,
    WaitForDeviceAuthorization Sample.noTimestamp
      [ Inputs.round428;
        Sample.round 400 (Sample.errorBody "authorization_pending") Sample.now;
        Sample.round 200 Sample.tokenBody Sample.now ]
      Sample.store
    = (Done (Returned (Some tok1) None), Sample.store,
       [ Sample.pollRequest; SleepEv 5000000000;
         Sample.pollRequest; SleepEv 5000000000; Sample.pollRequest ])
    /\ oauth2.Token.AccessToken tok1 = "tok123".
Proof.
  destruct (X17_waiting_then_token Sample.noTimestamp
              [ Inputs.round428;
                Sample.round 400 (Sample.errorBody "authorization_pending")
                  Sample.now ]
              (Sample.round 200 Sample.tokenBody Sample.now) []
              {| tokenOrError.Token :=
                   Some {| oauth2.Token.AccessToken := "tok123";
                           oauth2.Token.TokenType := "Bearer";
                           oauth2.Token.RefreshToken := "";
                           oauth2.Token.Expiry := 0 |};
                 tokenOrError.Error := "";
                 tokenOrError.ErrorDescription := "";
                 tokenOrError.ExpiresIn := 3600 |}
              {| oauth2.Token.AccessToken := "tok123";
                 oauth2.Token.TokenType := "Bearer";
                 oauth2.Token.RefreshToken := "";
                 oauth2.Token.Expiry := 0 |}
              Sample.store) as [tok1 [Hrun [Ha _]]].
  - apply Forall_cons; [|apply Forall_cons; [|apply Forall_nil]].
    + left. eexists. split; reflexivity.
    + right. eexists.
      split; [eexists; split; [reflexivity|];
              split; [reflexivity | left; reflexivity]
             | reflexivity].
  - eexists. split; [reflexivity|]. split; [reflexivity|].
    right. split; [reflexivity | discriminate].
  - reflexivity.
  - reflexivity.
  - vm_compute. split; discriminate.
  - exists tok1. split; [exact Hrun | exact Ha].
Defined.

(** X18.  A decoded slow_down that the loop reaches doubles the interval
    of the shared device code and nothing else; for an interval of 0 to
    4611686018 seconds the sleep before the next poll is of twice the old
    interval, and the next poll starts from the doubled interval. *)
Theorem X18_slow_down_doubles
    (parseTime : string -> option time.Time) (round : Round)
    (rest : list Round) (token : tokenOrError.t) (s : Store) :
  decodes parseTime round token ->
  tokenOrError.Error token = "slow_down" ->
  0 <= DeviceCode.Interval (code s) <= 4611686018 ->
  exists s1,
    WaitForDeviceAuthorization parseTime (round :: rest) s
    = after (tokenRequest s)
        (after (SleepEv (seconds (2 * DeviceCode.Interval (code s))))
           (WaitForDeviceAuthorization parseTime rest s1))
    /\ DeviceCode.Interval (code s1) = 2 * DeviceCode.Interval (code s)
    /\ sameButInterval s s1.
Proof.
  intros Hd He Hi. exists (doubled s).
  assert (H2 : DeviceCode.Interval (code (doubled s))
               = 2 * DeviceCode.Interval (code s)).
  { apply doubled_Interval. lia. }
  split; [|split; [exact H2 | apply sameButInterval_doubled]].
  rewrite (slow_down_then parseTime round token rest s Hd He).
  unfold intervalSleep. rewrite H2.
  rewrite mul64_Second by (unfold maxSeconds; lia). reflexivity.
Qed.

Lemma X18_witness :
  exists s1,
    WaitForDeviceAuthorization Sample.noTimestamp
      [ Sample.round 400 (Sample.errorBody "slow_down") Sample.now;
        Inputs.round428 ]
      Sample.store
    = after (tokenRequest Sample.store)
        (after (SleepEv (seconds (2 * 5)))
           (WaitForDeviceAuthorization Sample.noTimestamp
              [ Inputs.round428 ] s1))
    /\ DeviceCode.Interval (code s1) = 2 * 5.
Proof.
  destruct (X18_slow_down_doubles Sample.noTimestamp
              (Sample.round 400 (Sample.errorBody "slow_down") Sample.now)
              [ Inputs.round428 ]
              {| tokenOrError.Token := None;
                 tokenOrError.Error := "slow_down";
                 tokenOrError.ErrorDescription := "";
                 tokenOrError.ExpiresIn := 0 |}
              Sample.store) as [s1 [Hrun [Hi _]]].
  - eexists. split; [reflexivity|]. split; [reflexivity|]. left. reflexivity.
  - reflexivity.
  - vm_compute. split; discriminate.
  - exists s1. split; [exact Hrun | exact Hi].
Defined.

(** X19.  A decoded access_denied that the loop reaches, after any number
    of answers that kept it waiting, ends the run with ErrAccessDenied and
    no token; the answers that follow are never asked for. *)
Theorem X19_access_denied_after_waiting
    (parseTime : string -> option time.Time) (waiting : list Round)
    (round : Round) (rest : list Round) (token : tokenOrError.t)
    (s : Store) :
  Forall (keepsWaiting parseTime) waiting ->
  decodes parseTime round token ->
  tokenOrError.Error token = "access_denied" ->
  WaitForDeviceAuthorization parseTime (waiting ++ round :: rest)%list s
  = (Done (Returned None (Some ErrAccessDenied)), s,
     (pollAndSleep s waiting ++ [tokenRequest s])%list).
Proof.
  intros Hw Hd He. rewrite (waiting_rounds_then parseTime waiting _ s Hw).
  rewrite (access_denied_returns_the_sentinel parseTime round token rest s
             Hd He).
  reflexivity.
Qed.

Lemma X19_witness :
  WaitForDeviceAuthorization Sample.noTimestamp
    [ Inputs.round428;
      Sample.round 400 (Sample.errorBody "access_denied") Sample.now;
      Sample.round 200 Sample.tokenBody Sample.now ]
    Sample.store
  = (Done (Returned None (Some ErrAccessDenied)), Sample.store,
     [ Sample.pollRequest; SleepEv 5000000000; Sample.pollRequest ]).
Proof.
  apply (X19_access_denied_after_waiting Sample.noTimestamp
           [ Inputs.round428 ]
           (Sample.round 400 (Sample.errorBody "access_denied") Sample.now)
           [ Sample.round 200 Sample.tokenBody Sample.now ]
           {| tokenOrError.Token := None;
              tokenOrError.Error := "access_denied";
              tokenOrError.ErrorDescription := "";
              tokenOrError.ExpiresIn := 0 |}
           Sample.store).
  - apply Forall_cons; [|apply Forall_nil].
    left. eexists. split; reflexivity.
  - eexists. split; [reflexivity|]. split; [reflexivity|]. left. reflexivity.
  - reflexivity.
Defined.

(** X20.  A decoded error discriminant that is not empty and is none of
    authorization_pending, slow_down and access_denied, once the loop
    reaches it, ends the run with a fresh error whose text is
    authorization failed, a colon, a space and the discriminant as the
    server sent it, and no token.  The error is never the sentinel. *)
Theorem X20_other_discriminant_after_waiting
    (parseTime : string -> option time.Time) (waiting : list Round)
    (round : Round) (rest : list Round) (token : tokenOrError.t)
    (s : Store) :
  Forall (keepsWaiting parseTime) waiting ->
  decodes parseTime round token ->
  tokenOrError.Error token <> "" ->
  tokenOrError.Error token <> "authorization_pending" ->
  tokenOrError.Error token <> "slow_down" ->
  tokenOrError.Error token <> "access_denied" ->
  WaitForDeviceAuthorization parseTime (waiting ++ round :: rest)%list s
  = (Done (Returned None
             (Some (errorString
                      ("authorization failed: " ++ tokenOrError.Error token)))),
     s, (pollAndSleep s waiting ++ [tokenRequest s])%list).
Proof.
  intros Hw Hd H1 H2 H3 H4.
  rewrite (waiting_rounds_then parseTime waiting _ s Hw).
  rewrite (other_discriminant_is_fatal parseTime round token rest s
             Hd H1 H2 H3 H4).
  reflexivity.
Qed.

Lemma X20_witness :
  WaitForDeviceAuthorization Sample.noTimestamp
    [ Inputs.round428;
      Sample.round 400 (Sample.errorBody "Access_Denied") Sample.now ]
    Sample.store
  = (Done (Returned None
             (Some (errorString "authorization failed: Access_Denied"))),
     Sample.store,
     [ Sample.pollRequest; SleepEv 5000000000; Sample.pollRequest ]).
Proof.
  apply (X20_other_discriminant_after_waiting Sample.noTimestamp
           [ Inputs.round428 ]
           (Sample.round 400 (Sample.errorBody "Access_Denied") Sample.now)
           []
           {| tokenOrError.Token := None;
              tokenOrError.Error := "Access_Denied";
              tokenOrError.ErrorDescription := "";
              tokenOrError.ExpiresIn := 0 |}
           Sample.store).
  - apply Forall_cons; [|apply Forall_nil].
    left. eexists. split; reflexivity.
  - eexists. split; [reflexivity|]. split; [reflexivity|]. left. reflexivity.
  - discriminate.
  - discriminate.
  - discriminate.
  - discriminate.
Defined.

(* ===================================================================== *)
(** ** The command-line programs *)

Section ProgramFacts.

Variable parseTime : string -> option time.Time.

(** RequestDeviceCode, by cases on the answer. *)
Lemma request_outcomes answer c :
  (exists d,
      issues answer d
      /\ RequestDeviceCode answer c = (Done (Some d, None), c, [codeRequest c]))
  \/ (exists e,
         (forall d, ~ issues answer d)
         /\ RequestDeviceCode answer c
            = (Done (None, Some e), c, [codeRequest c])).
Proof.
  unfold issues, RequestDeviceCode, bind, PostForm, get, emit, ret,
    codeRequest.
  destruct answer as [cause|resp]; cbn -[DeviceCode.Decode Z.eqb Go.Join].
  - right. eexists. split; [|reflexivity]. intros d [resp [H _]]. discriminate.
  - destruct (Z.eqb_spec (http.StatusCode resp) http.StatusOK) as [H200|H200];
      cbn [negb].
    + destruct (DeviceCode.Decode (http.Body resp)) as [e|d0] eqn:Hd.
      * right. eexists. split; [|reflexivity].
        intros d [resp0 [H [_ Hd0]]]. inversion H; subst. congruence.
      * left. exists d0. split; [|reflexivity]. exists resp. auto.
    + right. eexists. split; [|reflexivity].
      intros d [resp0 [H [H1 _]]]. inversion H; subst. contradiction.
Qed.

Lemma main_unfolded w :
  program.main parseTime w
  = match program.NewProvider w (program.Getenv w "OIDCPROVIDERURL") with
    | inl err => ([program.Fatal err], program.Exited 1)
    | inr endpoint =>
        match RequestDeviceCode (program.codeAnswer w)
                (mainConfig w endpoint) with
        | (Panic reason, _, t) => (map program.Net t, program.Crashed reason)
        | (Done (_, Some err), _, t) =>
            ((map program.Net t ++ [program.Fatal err])%list,
             program.Exited 1)
        | (Done (None, None), _, t) =>
            (map program.Net t, program.Crashed nilDereference)
        | (Done (Some dcr, None), config1, t) =>
            program.preceded
              (map program.Net t
               ++ [program.Printf ("Visit: %v" ++ program.newline)
                     [program.VString
                        (DeviceCode.VerificationURLComplete dcr)]])%list
              (program.conclude
                 (WaitForDeviceAuthorization parseTime
                    (program.tokenAnswers w)
                    {| config := config1; code := dcr |}))
        end
    end.
Proof. reflexivity. Qed.

(** The requests among the outputs of the end of a program are the
    requests of the poller's trace. *)
Lemma requests_conclude run :
  program.requests (fst (program.conclude run))
  = flat_map (fun e => match e with
                       | PostFormEv target data => [(target, data)]
                       | SleepEv _ => []
                       end) (traceOf run).
Proof.
  assert (Hmap : forall t,
             program.requests (map program.Net t)
             = flat_map (fun e => match e with
                                  | PostFormEv target data => [(target, data)]
                                  | SleepEv _ => []
                                  end) t).
  { induction t as [|[target data|d] t IH]; cbn; [reflexivity| |exact IH].
    f_equal. exact IH. }
  assert (Happ : forall t o,
             match o with program.Net _ => False | _ => True end ->
             program.requests (map program.Net t ++ [o])
             = program.requests (map program.Net t)).
  { intros t o Ho. unfold program.requests. rewrite flat_map_app.
    destruct o; try contradiction; cbn; apply app_nil_r. }
  destruct run as [[[[|tok [err|]]|reason] s] t]; unfold traceOf;
    cbn [program.conclude fst snd];
    try rewrite Happ by exact I; apply Hmap.
Qed.

Lemma In_requests_run rounds s target data :
  In (target, data)
     (flat_map (fun e => match e with
                         | PostFormEv target data => [(target, data)]
                         | SleepEv _ => []
                         end)
        (traceOf (WaitForDeviceAuthorization parseTime rounds s))) ->
  PostFormEv target data = tokenRequest s.
Proof.
  intros H. apply in_flat_map in H. destruct H as [e [Hin He]].
  destruct (run_requests parseTime rounds s e Hin) as [-> | [d ->]].
  - unfold tokenRequest in *. cbn in He. destruct He as [He | []].
    inversion He. reflexivity.
  - contradiction.
Qed.

End ProgramFacts.



(** X22.  Every request that the program of cmd/main.go makes through
    package oauth2dev is one of two.  Either it is the device-code request,
    to the provider's authorization URL followed by /device, with the
    client id of OIDCCLIENTID and the scope openid profile email; or it is
    a poll, to the provider's token URL, with an empty client secret, the
    same client id, the device code exactly as the device endpoint issued
    it, and the device-code grant type. *)
Theorem X22_requests_of_main
    (parseTime : string -> option time.Time) (w : program.World)
    (target : string) (data : url.Values) :
  In (target, data) (program.requests (fst (program.main parseTime w))) ->
  exists endpoint,
    program.NewProvider w (program.Getenv w "OIDCPROVIDERURL") = inr endpoint
    /\ ((target = oauth2.Endpoint.AuthURL endpoint ++ "/device"
         /\ data = [ ("client_id", [program.Getenv w "OIDCCLIENTID"]);
                     ("scope", ["openid profile email"]) ])
        \/ (exists d,
               issues (program.codeAnswer w) d
               /\ target = oauth2.Endpoint.TokenURL endpoint
               /\ data
                  = [ ("client_secret", [""]);
                      ("client_id", [program.Getenv w "OIDCCLIENTID"]);
                      ("device_code", [DeviceCode.DeviceCode d]);
                      ("grant_type",
                         ["urn:ietf:params:oauth:grant-type:device_code"]) ])).
Proof.
  rewrite main_unfolded.
  destruct (program.NewProvider w (program.Getenv w "OIDCPROVIDERURL"))
    as [err|endpoint]; [cbn; contradiction|].
  intros Hin. exists endpoint. split; [reflexivity|].
  destruct (request_outcomes (program.codeAnswer w) (mainConfig w endpoint))
    as [[d [Hd E]] | [e [_ E]]]; rewrite E in Hin.
  - unfold program.preceded in Hin. cbn [fst map app] in Hin.
    unfold program.requests in Hin. cbn [flat_map codeRequest app] in Hin.
    fold program.requests in Hin. destruct Hin as [Hin | Hin].
    + inversion Hin; subst. left. split; reflexivity.
    + fold (program.requests
              (fst (program.conclude
                      (WaitForDeviceAuthorization parseTime
                         (program.tokenAnswers w)
                         {| config := mainConfig w endpoint; code := d |}))))
        in Hin.
      rewrite requests_conclude in Hin.
      apply (In_requests_run parseTime) in Hin. unfold tokenRequest in Hin.
      inversion Hin; subst. right. exists d. auto.
  - cbn in Hin. destruct Hin as [Hin | []].
    inversion Hin; subst. left. split; reflexivity.
Qed.

Lemma X22_witness :
  exists endpoint,
    program.NewProvider Worlds.happy
      (program.Getenv Worlds.happy "OIDCPROVIDERURL") = inr endpoint
    /\ (("https://idp/token"
         = oauth2.Endpoint.AuthURL endpoint ++ "/device"
         /\ [ ("client_secret", [""]); ("client_id", ["cli"]);
              ("device_code", ["D1"]);
              ("grant_type",
                 ["urn:ietf:params:oauth:grant-type:device_code"]) ]
            = [ ("client_id", [program.Getenv Worlds.happy "OIDCCLIENTID"]);
                ("scope", ["openid profile email"]) ])
        \/ (exists d,
               issues (program.codeAnswer Worlds.happy) d
               /\ "https://idp/token" = oauth2.Endpoint.TokenURL endpoint
               /\ [ ("client_secret", [""]); ("client_id", ["cli"]);
                    ("device_code", ["D1"]);
                    ("grant_type",
                       ["urn:ietf:params:oauth:grant-type:device_code"]) ]
                  = [ ("client_secret", [""]);
                      ("client_id",
                         [program.Getenv Worlds.happy "OIDCCLIENTID"]);
                      ("device_code", [DeviceCode.DeviceCode d]);
                      ("grant_type",
                         ["urn:ietf:params:oauth:grant-type:device_code"]) ])).
Proof.
  apply (X22_requests_of_main Sample.noTimestamp Worlds.happy).
  cbn. right. left. reflexivity.
Defined.

Section ProgramEnds.

Variable parseTime : string -> option time.Time.



End ProgramEnds.



